(** * StackHub front end: form validation and submission handlers

    A shallow embedding of the validation functions and the asynchronous
    submit handlers of the four form pages (launchpad, marketplace,
    staking, services) and of the [useFormValidation] hook, followed by
    the properties proved about them.

    - JavaScript strings are sequences of UTF-16 code units ([list N]).
    - JavaScript numbers are IEEE 754 binary64 values, through the
      executable specification [SpecFloat] of the standard library.
    - A React component's state is a record; a state setter is a function
      on that record; a validator, which sets an error and returns a
      boolean, is a computation in a small state monad.
    - An [async] handler with one [await] is a value of type [run]: it
      either finishes without calling the external action, or suspends
      with the call it made and the continuation that runs at settlement. *)

From Stdlib Require Import ZArith NArith List Bool Ascii String Lia.
From Stdlib Require Import Floats.SpecFloat.
From stdpp Require Import base option list gmap strings.

Local Open Scope N_scope.

(* ================================================================== *)
(** * JavaScript strings *)
(* ================================================================== *)

Module JS.

(** A string is its sequence of UTF-16 code units. *)
Definition jsstring : Type := list N.

(** The code units of an ASCII literal. *)
Definition js (s : string) : jsstring :=
  List.map N_of_ascii (list_ascii_of_string s).

(** [value.length] *)
Definition strlen (s : jsstring) : N := N.of_nat (List.length s).

(** A string is truthy when it is not empty: [!!s], and [!s] is its
    negation. *)
Definition truthy (s : jsstring) : bool :=
  match s with [] => false | _ :: _ => true end.

(** ECMAScript WhiteSpace and LineTerminator code points: what
    [String.prototype.trim], the prefix skipping of [parseInt] and
    [parseFloat], and the regular-expression class [\s] recognise. *)
Definition isWhiteSpace (c : N) : bool :=
  (c =? 9) || (c =? 10) || (c =? 11) || (c =? 12) || (c =? 13) ||
  (c =? 32) || (c =? 160) || (c =? 5760) ||
  ((8192 <=? c) && (c <=? 8202)) ||
  (c =? 8232) || (c =? 8233) || (c =? 8239) || (c =? 8287) ||
  (c =? 12288) || (c =? 65279).

Fixpoint trimStart (s : jsstring) : jsstring :=
  match s with
  | [] => []
  | c :: r => if isWhiteSpace c then trimStart r else s
  end.

Definition trimEnd (s : jsstring) : jsstring := rev (trimStart (rev s)).

(** [value.trim()] *)
Definition trim (s : jsstring) : jsstring := trimEnd (trimStart s).

(** [s.startsWith(p)] *)
Fixpoint startsWith (p s : jsstring) : bool :=
  match p, s with
  | [], _ => true
  | _ :: _, [] => false
  | a :: p', b :: s' => (a =? b) && startsWith p' s'
  end.

(** Character classes of the regular expressions used by the pages. *)
Definition isDigit (c : N) : bool := (48 <=? c) && (c <=? 57).
Definition isUpper (c : N) : bool := (65 <=? c) && (c <=? 90).
Definition isLower (c : N) : bool := (97 <=? c) && (c <=? 122).

(** [/^C+$/.test(s)] for a character class [C]: one or more characters,
    all of them in the class (no flag is set, so [^] and [$] are the two
    ends of the input). *)
Definition matchesPlus (cls : N -> bool) (s : jsstring) : bool :=
  truthy s && forallb cls s.

(* ------------------------------------------------------------------ *)
(** ** Numbers *)
(* ------------------------------------------------------------------ *)

(** A Number is a binary64 value. *)
Definition Number : Type := spec_float.

Definition prec : Z := 53%Z.
Definition emax : Z := 1024%Z.

Definition NaN : Number := S754_nan.

(** The Number nearest to an integer (round to nearest, ties to even);
    [neg] is the sign given to zero. *)
Definition ofInteger (neg : bool) (n : N) : Number :=
  binary_normalize prec emax (if neg then Z.opp (Z.of_N n) else Z.of_N n) 0 neg.

Definition ofZ (z : Z) : Number := binary_normalize prec emax z 0 false.

(** The Number nearest to [(-1)^neg * m * 10^e]: the rounding that a
    decimal literal or [parseFloat] performs. *)
Definition ofDecimal (neg : bool) (m : N) (e : Z) : Number :=
  match m with
  | N0 => S754_zero neg
  | Npos p =>
      match e with
      | Zneg k =>
          SFdiv prec emax (S754_finite neg p 0)
                          (S754_finite false (Pos.pow 10 k) 0)
      | _ => binary_normalize prec emax
               (if neg then Z.opp (Zpos p * 10 ^ e) else (Zpos p * 10 ^ e)%Z) 0 neg
      end
  end.

Definition isNaN (x : Number) : bool :=
  match x with S754_nan => true | _ => false end.

(** [x < y], [x <= y], [x > y] and [x * y] on Numbers. *)
Definition lt (x y : Number) : bool := SFltb x y.
Definition le (x y : Number) : bool := SFleb x y.
Definition gt (x y : Number) : bool := SFltb y x.
Definition mul (x y : Number) : Number := SFmul prec emax x y.

(** [Number.MAX_SAFE_INTEGER] is 2^53 - 1. *)
Definition MAX_SAFE_INTEGER : Number := ofZ (2 ^ 53 - 1).

(** The integer a finite integral Number stands for. *)
Definition toInteger (x : Number) : option Z :=
  match x with
  | S754_zero _ => Some 0%Z
  | S754_finite s m e =>
      let v := match e with
               | Zneg k => if (Zpos m mod 2 ^ Zpos k =? 0)%Z
                           then Some (Zpos m / 2 ^ Zpos k)%Z else None
               | _ => Some (Zpos m * 2 ^ e)%Z
               end in
      option_map (fun z => if s then Z.opp z else z) v
  | _ => None
  end.

(** [Math.pow(10, x)] for the arguments the pages pass, which are results
    of [parseInt]: integral, infinite or NaN.  The result is the Number
    nearest to the exact power; a finite argument that is not an integer
    never reaches this function and is answered with NaN here. *)
Definition pow10 (x : Number) : Number :=
  match x with
  | S754_nan => NaN
  | S754_infinity false => S754_infinity false
  | S754_infinity true => S754_zero false
  | _ => match toInteger x with
         | Some z => ofDecimal false 1 z
         | None => NaN
         end
  end.

(* ------------------------------------------------------------------ *)
(** ** parseInt and parseFloat *)
(* ------------------------------------------------------------------ *)

(** The value of a digit in radix up to 36. *)
Definition digitValue (c : N) : option N :=
  if isDigit c then Some (c - 48)
  else if isLower c then Some (c - 97 + 10)
  else if isUpper c then Some (c - 65 + 10)
  else None.

(** The values of the longest prefix of radix-[R] digits, and the rest. *)
Fixpoint spanDigits (R : N) (s : jsstring) : list N * jsstring :=
  match s with
  | [] => ([], [])
  | c :: r =>
      match digitValue c with
      | Some d => if d <? R
                  then let '(ds, rest) := spanDigits R r in (d :: ds, rest)
                  else ([], s)
      | None => ([], s)
      end
  end.

Definition digitsValue (R : N) (ds : list N) : N :=
  fold_left (fun acc d => R * acc + d) ds 0.

(** An optional sign: [true] for a leading [-]; a leading [+] or [-] is
    removed. *)
Definition takeSign (s : jsstring) : bool * jsstring :=
  match s with
  | 45 :: r => (true, r)
  | 43 :: r => (false, r)
  | _ => (false, s)
  end.

(** [parseInt(string, radix)]; radix [0] stands for an omitted radix. *)
Definition parseInt (str : jsstring) (radix : N) : Number :=
  let '(neg, S1) := takeSign (trimStart str) in
  if negb (radix =? 0) && ((radix <? 2) || (36 <? radix)) then NaN
  else
    let stripPrefix := (radix =? 0) || (radix =? 16) in
    let R0 := if radix =? 0 then 10 else radix in
    let '(R, S2) :=
      if stripPrefix then
        match S1 with
        | 48 :: 120 :: r => (16, r)
        | 48 :: 88 :: r => (16, r)
        | _ => (R0, S1)
        end
      else (R0, S1) in
    match spanDigits R S2 with
    | ([], _) => NaN
    | (ds, _) => ofInteger neg (digitsValue R ds)
    end.

(** The exponent part of a decimal literal, if one is there: [e] or [E],
    an optional sign and at least one digit. *)
Definition exponentPart (s : jsstring) : Z :=
  match s with
  | c :: r =>
      if (c =? 101) || (c =? 69) then
        let '(eneg, r') := takeSign r in
        match spanDigits 10 r' with
        | ([], _) => 0%Z
        | (ds, _) => let v := Z.of_N (digitsValue 10 ds) in
                     if eneg then Z.opp v else v
        end
      else 0%Z
  | [] => 0%Z
  end.

(** [parseFloat(string)]: the longest prefix, after leading white space,
    that is a StrDecimalLiteral. *)
Definition parseFloat (str : jsstring) : Number :=
  let '(neg, S1) := takeSign (trimStart str) in
  if startsWith (js "Infinity") S1 then S754_infinity neg
  else
    let '(ip, r1) := spanDigits 10 S1 in
    let '(fp, r2) := match r1 with
                     | 46 :: r => spanDigits 10 r
                     | _ => ([], r1)
                     end in
    match ip ++ fp with
    | [] => NaN
    | ds => ofDecimal neg (digitsValue 10 ds)
              (exponentPart r2 - Z.of_nat (List.length fp))
    end.

End JS.

(* ================================================================== *)
(** * Component state and asynchronous handlers *)
(* ================================================================== *)

Module Async.

(** A computation that reads and updates a component state [S]: a
    validator sets an error message and returns a boolean. *)
Definition M (S A : Type) : Type := S -> A * S.

Definition ret {S A} (a : A) : M S A := fun s => (a, s).
Definition bind {S A B} (m : M S A) (f : A -> M S B) : M S B :=
  fun s => let '(a, s1) := m s in f a s1.
(** A state setter used as a statement. *)
Definition exec {S} (f : S -> S) : M S unit := fun s => (tt, f s).

(** [!m] *)
Definition notM {S} (m : M S bool) : M S bool :=
  fun s => let '(b, s1) := m s in (negb b, s1).
(** [a || b]: [b] runs only when [a] is false. *)
Definition orM {S} (a b : M S bool) : M S bool :=
  fun s => let '(x, s1) := a s in if x then (true, s1) else b s1.

(** How the promise of the external action settles. *)
Inductive settlement : Type := Fulfilled | Rejected.

(** How the handler's own promise settles. *)
Inductive completion : Type := Returned | Threw.

(** The part of a handler after its [await]: run on the state found at
    settlement. *)
Definition continuation (S : Type) : Type := settlement -> S -> S * completion.

(** One run of a handler, up to its single [await]. *)
Inductive run (S C : Type) : Type :=
| Finished (s : S)
| Awaiting (s : S) (c : C) (k : continuation S).
Arguments Finished {S C} s.
Arguments Awaiting {S C} s c k.

(** [await call; rest]: [rest] runs when the call is fulfilled; a
    rejection is thrown at the [await] and skips it. *)
Definition awaitThen {S} (rest : S -> S) : continuation S :=
  fun o s => match o with
             | Fulfilled => (rest s, Returned)
             | Rejected => (s, Threw)
             end.

(** [try { body } finally { cleanup }]: the cleanup runs however the body
    completes, and the body's completion is kept. *)
Definition tryFinally {S} (body : continuation S) (cleanup : S -> S)
  : continuation S :=
  fun o s => let '(s1, c) := body o s in (cleanup s1, c).

(** The external calls a run makes. *)
Definition callsOf {S C} (r : run S C) : list C :=
  match r with
  | Finished _ => []
  | Awaiting _ c _ => [c]
  end.

(** The state a run leaves when it returns or suspends. *)
Definition stateOf {S C} (r : run S C) : S :=
  match r with
  | Finished s => s
  | Awaiting s _ _ => s
  end.

(** A mounted page: its state, the external calls that have not settled
    yet (with the continuations waiting for them) and the log of every
    external call made so far. *)
Record page (S C : Type) : Type := Page {
  ui : S;
  pending : list (C * continuation S);
  calls : list C
}.
Arguments Page {S C} ui pending calls.
Arguments ui {S C} p.
Arguments pending {S C} p.
Arguments calls {S C} p.

(** An event handler that only updates the state. *)
Definition edit {S C} (f : S -> S) (p : page S C) : page S C :=
  Page (f (ui p)) (pending p) (calls p).

(** A submit handler runs on the current state. *)
Definition dispatch {S C} (h : S -> run S C) (p : page S C) : page S C :=
  match h (ui p) with
  | Finished s => Page s (pending p) (calls p)
  | Awaiting s c k => Page s (pending p ++ [(c, k)]) (calls p ++ [c])
  end.

(** A trigger that is disabled delivers no event. *)
Definition trigger {S C} (disabled : S -> bool) (h : S -> run S C)
    (p : page S C) : page S C :=
  if disabled (ui p) then p else dispatch h p.

(** The [i]-th pending call settles: its continuation runs on the
    current state. *)
Definition settle {S C} (i : nat) (o : settlement) (p : page S C) : page S C :=
  match pending p !! i with
  | None => p
  | Some (_, k) => Page (fst (k o (ui p))) (delete i (pending p)) (calls p)
  end.

End Async.

Local Open Scope string_scope.

(** [!!e] for an error message. *)
Definition nonEmpty (e : string) : bool :=
  match e with EmptyString => false | String _ _ => true end.

(* ================================================================== *)
(** * Token launchpad page (launchpad/page.tsx) *)
(* ================================================================== *)

Module Launchpad.
Import JS Async.

Record state : Type := State {
  name : jsstring;      nameError : string;
  symbol : jsstring;    symbolError : string;
  decimals : jsstring;  decimalsError : string;
  supply : jsstring;    supplyError : string;
  isLoading : bool
}.

(** The [useState] initial values. *)
Definition initial : state := State [] "" [] "" (js "6") "" [] "" false.

Definition setName (v : jsstring) (s : state) : state :=
  State v (nameError s) (symbol s) (symbolError s) (decimals s)
        (decimalsError s) (supply s) (supplyError s) (isLoading s).
Definition setNameError (e : string) (s : state) : state :=
  State (name s) e (symbol s) (symbolError s) (decimals s)
        (decimalsError s) (supply s) (supplyError s) (isLoading s).
Definition setSymbol (v : jsstring) (s : state) : state :=
  State (name s) (nameError s) v (symbolError s) (decimals s)
        (decimalsError s) (supply s) (supplyError s) (isLoading s).
Definition setSymbolError (e : string) (s : state) : state :=
  State (name s) (nameError s) (symbol s) e (decimals s)
        (decimalsError s) (supply s) (supplyError s) (isLoading s).
Definition setDecimals (v : jsstring) (s : state) : state :=
  State (name s) (nameError s) (symbol s) (symbolError s) v
        (decimalsError s) (supply s) (supplyError s) (isLoading s).
Definition setDecimalsError (e : string) (s : state) : state :=
  State (name s) (nameError s) (symbol s) (symbolError s) (decimals s)
        e (supply s) (supplyError s) (isLoading s).
Definition setSupply (v : jsstring) (s : state) : state :=
  State (name s) (nameError s) (symbol s) (symbolError s) (decimals s)
        (decimalsError s) v (supplyError s) (isLoading s).
Definition setSupplyError (e : string) (s : state) : state :=
  State (name s) (nameError s) (symbol s) (symbolError s) (decimals s)
        (decimalsError s) (supply s) e (isLoading s).
Definition setIsLoading (b : bool) (s : state) : state :=
  State (name s) (nameError s) (symbol s) (symbolError s) (decimals s)
        (decimalsError s) (supply s) (supplyError s) b.

(** The external action [createToken(name, symbol, decimals, totalSupply)]. *)
Inductive call : Type :=
| createToken (name symbol : jsstring) (decimals totalSupply : Number).

Definition validateName (value : jsstring) : M state bool :=
  if negb (truthy (trim value)) then
    bind (exec (setNameError "Token name is required")) (fun _ => ret false)
  else if (strlen value <? 2)%N || (32 <? strlen value)%N then
    bind (exec (setNameError "Token name must be 2-32 characters")) (fun _ => ret false)
  else if negb (matchesPlus
                  (fun c => isLower c || isUpper c || isDigit c || isWhiteSpace c)
                  value) then
    bind (exec (setNameError "Token name must be alphanumeric")) (fun _ => ret false)
  else
    bind (exec (setNameError "")) (fun _ => ret true).

Definition validateSymbol (value : jsstring) : M state bool :=
  if negb (truthy (trim value)) then
    bind (exec (setSymbolError "Symbol is required")) (fun _ => ret false)
  else if (strlen value <? 2)%N || (5 <? strlen value)%N then
    bind (exec (setSymbolError "Symbol must be 2-5 characters")) (fun _ => ret false)
  else if negb (matchesPlus isUpper value) then
    bind (exec (setSymbolError "Symbol must be uppercase letters only")) (fun _ => ret false)
  else
    bind (exec (setSymbolError "")) (fun _ => ret true).

Definition validateDecimals (value : jsstring) : M state bool :=
  let num := parseInt value 10 in
  if isNaN num || lt num (ofZ 0) || gt num (ofZ 18) then
    bind (exec (setDecimalsError "Decimals must be between 0 and 18")) (fun _ => ret false)
  else
    bind (exec (setDecimalsError "")) (fun _ => ret true).

Definition validateSupply (value : jsstring) : M state bool :=
  if negb (truthy (trim value)) then
    bind (exec (setSupplyError "Supply is required")) (fun _ => ret false)
  else
    let num := parseInt value 10 in
    if isNaN num || le num (ofZ 0) then
      bind (exec (setSupplyError "Supply must be a positive integer")) (fun _ => ret false)
    else if gt num MAX_SAFE_INTEGER then
      bind (exec (setSupplyError "Supply exceeds maximum safe value")) (fun _ => ret false)
    else
      bind (exec (setSupplyError "")) (fun _ => ret true).

(** [handleCreate]: the four validators joined by [||], then the call
    inside [try ... finally]. *)
Definition handleCreate (s : state) : run state call :=
  let '(abort, s1) :=
    orM (notM (validateName (name s)))
      (orM (notM (validateSymbol (symbol s)))
         (orM (notM (validateDecimals (decimals s)))
              (notM (validateSupply (supply s))))) s in
  if abort then Finished s1
  else
    let s2 := setIsLoading true s1 in
    let totalSupply := mul (parseInt (supply s) 0) (pow10 (parseInt (decimals s) 0)) in
    Awaiting s2
      (createToken (name s) (symbol s) (parseInt (decimals s) 0) totalSupply)
      (tryFinally
         (awaitThen (fun st => setSupply [] (setDecimals (js "6")
                                 (setSymbol [] (setName [] st)))))
         (setIsLoading false)).

(** The [disabled] attribute of the create button. *)
Definition createDisabled (s : state) : bool :=
  isLoading s || nonEmpty (nameError s) || nonEmpty (symbolError s) ||
  nonEmpty (decimalsError s) || nonEmpty (supplyError s) ||
  negb (truthy (name s)) || negb (truthy (symbol s)) || negb (truthy (supply s)).

(** What the user and the environment can do to the mounted page.  The
    payload of [ChangeSymbol] is the typed text after [toUpperCase()]. *)
Inductive event : Type :=
| ChangeName (v : jsstring) | BlurName
| ChangeSymbol (upper : jsstring) | BlurSymbol
| ChangeDecimals (v : jsstring) | BlurDecimals
| ChangeSupply (v : jsstring) | BlurSupply
| ClickCreate
| Settle (i : nat) (o : settlement).

Definition step (p : page state call) (e : event) : page state call :=
  match e with
  | ChangeName v => edit (setName v) p
  | BlurName => edit (fun s => snd (validateName (name s) s)) p
  | ChangeSymbol v => edit (setSymbol v) p
  | BlurSymbol => edit (fun s => snd (validateSymbol (symbol s) s)) p
  | ChangeDecimals v => edit (setDecimals v) p
  | BlurDecimals => edit (fun s => snd (validateDecimals (decimals s) s)) p
  | ChangeSupply v => edit (setSupply v) p
  | BlurSupply => edit (fun s => snd (validateSupply (supply s) s)) p
  | ClickCreate => trigger createDisabled handleCreate p
  | Settle i o => settle i o p
  end.

Definition mounted : page state call := Page initial [] [].

Definition after (evs : list event) : page state call :=
  fold_left step evs mounted.

End Launchpad.

(* ================================================================== *)
(** * NFT marketplace page *)
(* ================================================================== *)

Module Marketplace.
Import JS Async.

Record state : Type := State {
  mintUri : jsstring;      mintUriError : string;
  listTokenId : jsstring;  listTokenIdError : string;
  listPrice : jsstring;    listPriceError : string;
  buyTokenId : jsstring;   buyTokenIdError : string
}.

Definition initial : state := State [] "" [] "" [] "" [] "".

Definition setMintUri (v : jsstring) (s : state) : state :=
  State v (mintUriError s) (listTokenId s) (listTokenIdError s)
        (listPrice s) (listPriceError s) (buyTokenId s) (buyTokenIdError s).
Definition setMintUriError (e : string) (s : state) : state :=
  State (mintUri s) e (listTokenId s) (listTokenIdError s)
        (listPrice s) (listPriceError s) (buyTokenId s) (buyTokenIdError s).
Definition setListTokenId (v : jsstring) (s : state) : state :=
  State (mintUri s) (mintUriError s) v (listTokenIdError s)
        (listPrice s) (listPriceError s) (buyTokenId s) (buyTokenIdError s).
Definition setListTokenIdError (e : string) (s : state) : state :=
  State (mintUri s) (mintUriError s) (listTokenId s) e
        (listPrice s) (listPriceError s) (buyTokenId s) (buyTokenIdError s).
Definition setListPrice (v : jsstring) (s : state) : state :=
  State (mintUri s) (mintUriError s) (listTokenId s) (listTokenIdError s)
        v (listPriceError s) (buyTokenId s) (buyTokenIdError s).
Definition setListPriceError (e : string) (s : state) : state :=
  State (mintUri s) (mintUriError s) (listTokenId s) (listTokenIdError s)
        (listPrice s) e (buyTokenId s) (buyTokenIdError s).
Definition setBuyTokenId (v : jsstring) (s : state) : state :=
  State (mintUri s) (mintUriError s) (listTokenId s) (listTokenIdError s)
        (listPrice s) (listPriceError s) v (buyTokenIdError s).
Definition setBuyTokenIdError (e : string) (s : state) : state :=
  State (mintUri s) (mintUriError s) (listTokenId s) (listTokenIdError s)
        (listPrice s) (listPriceError s) (buyTokenId s) e.

(** The external actions of the page. *)
Inductive call : Type :=
| mintNFT (uri : jsstring)
| listNFT (tokenId price : Number)
| buyNFT (tokenId : Number).

Definition validateUri (uri : jsstring) : M state bool :=
  if negb (truthy (trim uri)) then
    bind (exec (setMintUriError "URI is required")) (fun _ => ret false)
  else if (256 <? strlen uri)%N then
    bind (exec (setMintUriError "URI must be 256 characters or less")) (fun _ => ret false)
  else if negb (startsWith (js "ipfs://") uri) &&
          negb (startsWith (js "http://") uri) &&
          negb (startsWith (js "https://") uri) then
    bind (exec (setMintUriError "URI must start with ipfs://, http://, or https://"))
         (fun _ => ret false)
  else
    bind (exec (setMintUriError "")) (fun _ => ret true).

(** The second argument of [validateTokenId]. *)
Inductive tokenField : Type := list_ | buy_.

Definition setTokenIdError (field : tokenField) (e : string) : state -> state :=
  match field with
  | list_ => setListTokenIdError e
  | buy_ => setBuyTokenIdError e
  end.

Definition validateTokenId (id : jsstring) (field : tokenField) : M state bool :=
  if negb (truthy (trim id)) then
    bind (exec (setTokenIdError field "Token ID is required")) (fun _ => ret false)
  else
    let num := parseInt id 10 in
    if isNaN num || lt num (ofZ 0) then
      bind (exec (setTokenIdError field "Token ID must be a non-negative integer"))
           (fun _ => ret false)
    else
      bind (exec (setTokenIdError field "")) (fun _ => ret true).

Definition validatePrice (price : jsstring) : M state bool :=
  if negb (truthy (trim price)) then
    bind (exec (setListPriceError "Price is required")) (fun _ => ret false)
  else
    let num := parseFloat price in
    if isNaN num || le num (ofZ 0) then
      bind (exec (setListPriceError "Price must be a positive number")) (fun _ => ret false)
    else if lt num (ofDecimal false 1 (-3)) then
      bind (exec (setListPriceError "Minimum price is 0.001 STX")) (fun _ => ret false)
    else
      bind (exec (setListPriceError "")) (fun _ => ret true).

(** The three handlers await the call outside any [try]: nothing follows
    a rejection. *)
Definition handleMint (s : state) : run state call :=
  let '(abort, s1) := notM (validateUri (mintUri s)) s in
  if abort then Finished s1
  else Awaiting s1 (mintNFT (mintUri s)) (awaitThen (setMintUri [])).

Definition handleList (s : state) : run state call :=
  let '(abort, s1) :=
    orM (notM (validateTokenId (listTokenId s) list_))
        (notM (validatePrice (listPrice s))) s in
  if abort then Finished s1
  else Awaiting s1
         (listNFT (parseInt (listTokenId s) 0)
                  (mul (parseInt (listPrice s) 0) (ofZ 1000000)))
         (awaitThen (fun st => setListPrice [] (setListTokenId [] st))).

Definition handleBuy (s : state) : run state call :=
  let '(abort, s1) := notM (validateTokenId (buyTokenId s) buy_) s in
  if abort then Finished s1
  else Awaiting s1 (buyNFT (parseInt (buyTokenId s) 0))
                (awaitThen (setBuyTokenId [])).

(** Only the mint button has a [disabled] attribute. *)
Definition mintDisabled (s : state) : bool :=
  nonEmpty (mintUriError s) || negb (truthy (mintUri s)).
Definition listDisabled (s : state) : bool := false.
Definition buyDisabled (s : state) : bool := false.

(** Only the URI input validates on blur. *)
Inductive event : Type :=
| ChangeMintUri (v : jsstring) | BlurMintUri
| ChangeListTokenId (v : jsstring)
| ChangeListPrice (v : jsstring)
| ChangeBuyTokenId (v : jsstring)
| SubmitMint | SubmitList | SubmitBuy
| Settle (i : nat) (o : settlement).

Definition step (p : page state call) (e : event) : page state call :=
  match e with
  | ChangeMintUri v => edit (setMintUri v) p
  | BlurMintUri => edit (fun s => snd (validateUri (mintUri s) s)) p
  | ChangeListTokenId v => edit (setListTokenId v) p
  | ChangeListPrice v => edit (setListPrice v) p
  | ChangeBuyTokenId v => edit (setBuyTokenId v) p
  | SubmitMint => trigger mintDisabled handleMint p
  | SubmitList => trigger listDisabled handleList p
  | SubmitBuy => trigger buyDisabled handleBuy p
  | Settle i o => settle i o p
  end.

Definition mounted : page state call := Page initial [] [].

Definition after (evs : list event) : page state call :=
  fold_left step evs mounted.

End Marketplace.

(* ================================================================== *)
(** * Staking vault page *)
(* ================================================================== *)

Module Staking.
Import JS Async.

Record state : Type := State {
  stakeAmount : jsstring;    stakeAmountError : string;
  unstakeAmount : jsstring;  unstakeAmountError : string;
  isStaking : bool;
  isUnstaking : bool
}.

Definition initial : state := State [] "" [] "" false false.

Definition setStakeAmount (v : jsstring) (s : state) : state :=
  State v (stakeAmountError s) (unstakeAmount s) (unstakeAmountError s)
        (isStaking s) (isUnstaking s).
Definition setStakeAmountError (e : string) (s : state) : state :=
  State (stakeAmount s) e (unstakeAmount s) (unstakeAmountError s)
        (isStaking s) (isUnstaking s).
Definition setUnstakeAmount (v : jsstring) (s : state) : state :=
  State (stakeAmount s) (stakeAmountError s) v (unstakeAmountError s)
        (isStaking s) (isUnstaking s).
Definition setUnstakeAmountError (e : string) (s : state) : state :=
  State (stakeAmount s) (stakeAmountError s) (unstakeAmount s) e
        (isStaking s) (isUnstaking s).
Definition setIsStaking (b : bool) (s : state) : state :=
  State (stakeAmount s) (stakeAmountError s) (unstakeAmount s)
        (unstakeAmountError s) b (isUnstaking s).
Definition setIsUnstaking (b : bool) (s : state) : state :=
  State (stakeAmount s) (stakeAmountError s) (unstakeAmount s)
        (unstakeAmountError s) (isStaking s) b.

Inductive call : Type :=
| stakeSTX (amount : Number)
| requestUnstake (amount : Number).

Definition validateStakeAmount (amount : jsstring) : M state bool :=
  if negb (truthy (trim amount)) then
    bind (exec (setStakeAmountError "Amount is required")) (fun _ => ret false)
  else
    let num := parseFloat amount in
    if isNaN num || le num (ofZ 0) then
      bind (exec (setStakeAmountError "Amount must be a positive number")) (fun _ => ret false)
    else if lt num (ofZ 1) then
      bind (exec (setStakeAmountError "Minimum stake is 1 STX")) (fun _ => ret false)
    else
      bind (exec (setStakeAmountError "")) (fun _ => ret true).

Definition validateUnstakeAmount (amount : jsstring) : M state bool :=
  if negb (truthy (trim amount)) then
    bind (exec (setUnstakeAmountError "Amount is required")) (fun _ => ret false)
  else
    let num := parseFloat amount in
    if isNaN num || le num (ofZ 0) then
      bind (exec (setUnstakeAmountError "Amount must be a positive number")) (fun _ => ret false)
    else if lt num (ofZ 1) then
      bind (exec (setUnstakeAmountError "Minimum unstake is 1 STX")) (fun _ => ret false)
    else
      bind (exec (setUnstakeAmountError "")) (fun _ => ret true).

Definition handleStake (s : state) : run state call :=
  let '(abort, s1) := notM (validateStakeAmount (stakeAmount s)) s in
  if abort then Finished s1
  else
    let s2 := setIsStaking true s1 in
    let amount := mul (parseFloat (stakeAmount s)) (ofZ 1000000) in
    Awaiting s2 (stakeSTX amount)
      (tryFinally (awaitThen (setStakeAmount [])) (setIsStaking false)).

Definition handleUnstake (s : state) : run state call :=
  let '(abort, s1) := notM (validateUnstakeAmount (unstakeAmount s)) s in
  if abort then Finished s1
  else
    let s2 := setIsUnstaking true s1 in
    let amount := mul (parseFloat (unstakeAmount s)) (ofZ 1000000) in
    Awaiting s2 (requestUnstake amount)
      (tryFinally (awaitThen (setUnstakeAmount [])) (setIsUnstaking false)).

Definition stakeDisabled (s : state) : bool :=
  isStaking s || nonEmpty (stakeAmountError s) || negb (truthy (stakeAmount s)).
Definition unstakeDisabled (s : state) : bool :=
  isUnstaking s || nonEmpty (unstakeAmountError s) || negb (truthy (unstakeAmount s)).

Inductive event : Type :=
| ChangeStakeAmount (v : jsstring) | BlurStakeAmount
| ChangeUnstakeAmount (v : jsstring) | BlurUnstakeAmount
| SubmitStake | SubmitUnstake
| Settle (i : nat) (o : settlement).

Definition step (p : page state call) (e : event) : page state call :=
  match e with
  | ChangeStakeAmount v => edit (setStakeAmount v) p
  | BlurStakeAmount => edit (fun s => snd (validateStakeAmount (stakeAmount s) s)) p
  | ChangeUnstakeAmount v => edit (setUnstakeAmount v) p
  | BlurUnstakeAmount => edit (fun s => snd (validateUnstakeAmount (unstakeAmount s) s)) p
  | SubmitStake => trigger stakeDisabled handleStake p
  | SubmitUnstake => trigger unstakeDisabled handleUnstake p
  | Settle i o => settle i o p
  end.

Definition mounted : page state call := Page initial [] [].

Definition after (evs : list event) : page state call :=
  fold_left step evs mounted.

End Staking.

(* ================================================================== *)
(** * Service registry page *)
(* ================================================================== *)

Module Services.
Import JS Async.

Record state : Type := State {
  title : jsstring;      titleError : string;
  price : jsstring;      priceError : string;
  serviceId : jsstring;  serviceIdError : string;
  isRegistering : bool;
  isPaying : bool
}.

Definition initial : state := State [] "" [] "" [] "" false false.

Definition setTitle (v : jsstring) (s : state) : state :=
  State v (titleError s) (price s) (priceError s) (serviceId s)
        (serviceIdError s) (isRegistering s) (isPaying s).
Definition setTitleError (e : string) (s : state) : state :=
  State (title s) e (price s) (priceError s) (serviceId s)
        (serviceIdError s) (isRegistering s) (isPaying s).
Definition setPrice (v : jsstring) (s : state) : state :=
  State (title s) (titleError s) v (priceError s) (serviceId s)
        (serviceIdError s) (isRegistering s) (isPaying s).
Definition setPriceError (e : string) (s : state) : state :=
  State (title s) (titleError s) (price s) e (serviceId s)
        (serviceIdError s) (isRegistering s) (isPaying s).
Definition setServiceId (v : jsstring) (s : state) : state :=
  State (title s) (titleError s) (price s) (priceError s) v
        (serviceIdError s) (isRegistering s) (isPaying s).
Definition setServiceIdError (e : string) (s : state) : state :=
  State (title s) (titleError s) (price s) (priceError s) (serviceId s)
        e (isRegistering s) (isPaying s).
Definition setIsRegistering (b : bool) (s : state) : state :=
  State (title s) (titleError s) (price s) (priceError s) (serviceId s)
        (serviceIdError s) b (isPaying s).
Definition setIsPaying (b : bool) (s : state) : state :=
  State (title s) (titleError s) (price s) (priceError s) (serviceId s)
        (serviceIdError s) (isRegistering s) b.

Inductive call : Type :=
| registerService (title : jsstring) (price : Number)
| payForService (serviceId : Number).

Definition validateTitle (value : jsstring) : M state bool :=
  if negb (truthy (trim value)) then
    bind (exec (setTitleError "Service title is required")) (fun _ => ret false)
  else if (strlen value <? 3)%N || (64 <? strlen value)%N then
    bind (exec (setTitleError "Title must be 3-64 characters")) (fun _ => ret false)
  else
    bind (exec (setTitleError "")) (fun _ => ret true).

Definition validatePrice (value : jsstring) : M state bool :=
  if negb (truthy (trim value)) then
    bind (exec (setPriceError "Price is required")) (fun _ => ret false)
  else
    let num := parseFloat value in
    if isNaN num || le num (ofZ 0) then
      bind (exec (setPriceError "Price must be a positive number")) (fun _ => ret false)
    else if lt num (ofDecimal false 1 (-1)) then
      bind (exec (setPriceError "Minimum price is 0.1 STX")) (fun _ => ret false)
    else
      bind (exec (setPriceError "")) (fun _ => ret true).

Definition validateServiceId (value : jsstring) : M state bool :=
  if negb (truthy (trim value)) then
    bind (exec (setServiceIdError "Service ID is required")) (fun _ => ret false)
  else
    let num := parseInt value 10 in
    if isNaN num || lt num (ofZ 0) then
      bind (exec (setServiceIdError "Service ID must be a non-negative integer"))
           (fun _ => ret false)
    else
      bind (exec (setServiceIdError "")) (fun _ => ret true).

Definition handleRegister (s : state) : run state call :=
  let '(abort, s1) :=
    orM (notM (validateTitle (title s))) (notM (validatePrice (price s))) s in
  if abort then Finished s1
  else
    let s2 := setIsRegistering true s1 in
    let priceInMicrostacks := mul (parseFloat (price s)) (ofZ 1000000) in
    Awaiting s2 (registerService (title s) priceInMicrostacks)
      (tryFinally (awaitThen (fun st => setPrice [] (setTitle [] st)))
                  (setIsRegistering false)).

Definition handlePay (s : state) : run state call :=
  let '(abort, s1) := notM (validateServiceId (serviceId s)) s in
  if abort then Finished s1
  else
    let s2 := setIsPaying true s1 in
    Awaiting s2 (payForService (parseInt (serviceId s) 0))
      (tryFinally (awaitThen (setServiceId [])) (setIsPaying false)).

Definition registerDisabled (s : state) : bool :=
  isRegistering s || nonEmpty (titleError s) || nonEmpty (priceError s) ||
  negb (truthy (title s)) || negb (truthy (price s)).
Definition payDisabled (s : state) : bool :=
  isPaying s || nonEmpty (serviceIdError s) || negb (truthy (serviceId s)).

Inductive event : Type :=
| ChangeTitle (v : jsstring) | BlurTitle
| ChangePrice (v : jsstring) | BlurPrice
| ChangeServiceId (v : jsstring) | BlurServiceId
| ClickRegister | ClickPay
| Settle (i : nat) (o : settlement).

Definition step (p : page state call) (e : event) : page state call :=
  match e with
  | ChangeTitle v => edit (setTitle v) p
  | BlurTitle => edit (fun s => snd (validateTitle (title s) s)) p
  | ChangePrice v => edit (setPrice v) p
  | BlurPrice => edit (fun s => snd (validatePrice (price s) s)) p
  | ChangeServiceId v => edit (setServiceId v) p
  | BlurServiceId => edit (fun s => snd (validateServiceId (serviceId s) s)) p
  | ClickRegister => trigger registerDisabled handleRegister p
  | ClickPay => trigger payDisabled handlePay p
  | Settle i o => settle i o p
  end.

Definition mounted : page state call := Page initial [] [].

Definition after (evs : list event) : page state call :=
  fold_left step evs mounted.

End Services.

(* ================================================================== *)
(** * The useFormValidation hook *)
(* ================================================================== *)

Module FormHook.

(** What a validator returns: [{ valid: boolean; error?: string }]. *)
Record result : Type := Result { valid : bool; error : option string }.

Section Hook.
(** The type of field values ([any] in the source). *)
Context {V : Type}.

(** A validator receives [values[field]], which is [undefined] ([None])
    when the object has no such key. *)
Definition validator : Type := option V -> result.

(** The three [useState] cells.  An entry of [errors] holds the
    validator's [error], which may itself be [undefined]. *)
Record state : Type := State {
  values : gmap string V;
  errors : gmap string (option string);
  touched : gmap string bool
}.

Variable initialState : gmap string V.
Variable validators : gmap string validator.

Definition mounted : state := State initialState ∅ ∅.

Definition setValues (f : gmap string V -> gmap string V) (st : state) : state :=
  State (f (values st)) (errors st) (touched st).
Definition setErrors (f : gmap string (option string) -> gmap string (option string))
    (st : state) : state :=
  State (values st) (f (errors st)) (touched st).
Definition setTouched (f : gmap string bool -> gmap string bool) (st : state) : state :=
  State (values st) (errors st) (f (touched st)).

(** [errors[field]] as the form shows it. *)
Definition shown (st : state) (field : string) : option string :=
  mjoin (errors st !! field).

Definition validate (field : string) (st : state) : bool * state :=
  match validators !! field with
  | None => (true, st)
  | Some validator =>
      let result := validator (values st !! field) in
      if valid result then
        (valid result, setErrors (fun prev => delete field prev) st)
      else
        (valid result, setErrors (fun prev => <[field := error result]> prev) st)
  end.

(** The body of the [forEach] over [Object.keys(validators)]. *)
Definition validateField (vals : gmap string V) (field : string)
    (validator : validator) (acc : gmap string (option string) * bool)
  : gmap string (option string) * bool :=
  let '(newErrors, isValid) := acc in
  let result := validator (vals !! field) in
  if negb (valid result) then (<[field := error result]> newErrors, false)
  else (newErrors, isValid).

(** The entry a rejecting validator leaves in the error map for a
    field; none when it accepts. *)
Definition verdict (vals : gmap string V) (field : string)
    (validator : validator) : option (option string) :=
  let result := validator (vals !! field) in
  if valid result then None else Some (error result).

Definition validateAll (st : state) : bool * state :=
  let '(newErrors, isValid) :=
    map_fold (validateField (values st)) (∅, true) validators in
  (isValid, setErrors (fun _ => newErrors) st).


Definition setFieldTouched (field : string) (st : state) : state :=
  snd (validate field (setTouched (fun prev => <[field := true]> prev) st)).

Definition reset (st : state) : state :=
  setTouched (fun _ => ∅) (setErrors (fun _ => ∅) (setValues (fun _ => initialState) st)).

End Hook.

Arguments state V : clear implicits.
Arguments validator V : clear implicits.

End FormHook.

(* ================================================================== *)
(** * The validators of the four pages, field by field *)
(* ================================================================== *)

Module Fields.
Import JS Async.

(** Every validated input of the application. *)
Inductive field : Type :=
| TokenName | TokenSymbol | TokenDecimals | TokenSupply
| MintUri | ListTokenId | BuyTokenId | ListPrice
| StakeAmount | UnstakeAmount
| ServiceTitle | ServicePrice | ServiceId.

(** What a field's validator answers on a value: the boolean it returns
    and the error message it leaves for display. *)
Definition check (f : field) (v : jsstring) : bool * string :=
  match f with
  | TokenName =>
      let '(ok, s) := Launchpad.validateName v Launchpad.initial in
      (ok, Launchpad.nameError s)
  | TokenSymbol =>
      let '(ok, s) := Launchpad.validateSymbol v Launchpad.initial in
      (ok, Launchpad.symbolError s)
  | TokenDecimals =>
      let '(ok, s) := Launchpad.validateDecimals v Launchpad.initial in
      (ok, Launchpad.decimalsError s)
  | TokenSupply =>
      let '(ok, s) := Launchpad.validateSupply v Launchpad.initial in
      (ok, Launchpad.supplyError s)
  | MintUri =>
      let '(ok, s) := Marketplace.validateUri v Marketplace.initial in
      (ok, Marketplace.mintUriError s)
  | ListTokenId =>
      let '(ok, s) := Marketplace.validateTokenId v Marketplace.list_ Marketplace.initial in
      (ok, Marketplace.listTokenIdError s)
  | BuyTokenId =>
      let '(ok, s) := Marketplace.validateTokenId v Marketplace.buy_ Marketplace.initial in
      (ok, Marketplace.buyTokenIdError s)
  | ListPrice =>
      let '(ok, s) := Marketplace.validatePrice v Marketplace.initial in
      (ok, Marketplace.listPriceError s)
  | StakeAmount =>
      let '(ok, s) := Staking.validateStakeAmount v Staking.initial in
      (ok, Staking.stakeAmountError s)
  | UnstakeAmount =>
      let '(ok, s) := Staking.validateUnstakeAmount v Staking.initial in
      (ok, Staking.unstakeAmountError s)
  | ServiceTitle =>
      let '(ok, s) := Services.validateTitle v Services.initial in
      (ok, Services.titleError s)
  | ServicePrice =>
      let '(ok, s) := Services.validatePrice v Services.initial in
      (ok, Services.priceError s)
  | ServiceId =>
      let '(ok, s) := Services.validateServiceId v Services.initial in
      (ok, Services.serviceIdError s)
  end.

Definition accepts (f : field) (v : jsstring) : bool := fst (check f v).
Definition message (f : field) (v : jsstring) : string := snd (check f v).

(** The messages of the required rule all end in the same words. *)
Definition isRequiredMessage (m : string) : bool :=
  let k := String.length " is required" in
  let n := String.length m in
  (k <=? n)%nat && String.eqb (substring (n - k) k m) " is required".

(** Empty or made of white space only. *)
Definition blank (v : jsstring) : bool := forallb isWhiteSpace v.

(** The message of each validator's required rule; the decimals validator
    has no such rule. *)
Definition requiredMessage (f : field) : option string :=
  match f with
  | TokenName => Some "Token name is required"
  | TokenSymbol => Some "Symbol is required"
  | TokenDecimals => None
  | TokenSupply => Some "Supply is required"
  | MintUri => Some "URI is required"
  | ListTokenId | BuyTokenId => Some "Token ID is required"
  | ListPrice | ServicePrice => Some "Price is required"
  | StakeAmount | UnstakeAmount => Some "Amount is required"
  | ServiceTitle => Some "Service title is required"
  | ServiceId => Some "Service ID is required"
  end.

End Fields.

(* ================================================================== *)
(** * Pending calls of one action *)
(* ================================================================== *)

Module Guard.
Import Async.

(** How many of the pending calls belong to the action that [mine]
    recognises. *)
Fixpoint countCalls {S C} (mine : C -> bool) (l : list (C * continuation S)) : nat :=
  match l with
  | [] => 0
  | (c, _) :: r => (if mine c then 1 else 0) + countCalls mine r
  end.

(** The in-flight flag of an action tells whether one of its calls is
    pending, there is never more than one, and every waiting continuation
    clears the flag of its own action and keeps the others. *)
Definition guarded {S C} (flag : S -> bool) (mine : C -> bool)
    (p : page S C) : Prop :=
  Forall (fun ck => forall o s,
            flag (fst (snd ck o s)) = if mine (fst ck) then false else flag s)
         (pending p) /\
  countCalls mine (pending p) = if flag (ui p) then 1%nat else 0%nat.

(** What a handler must do for [guarded] to be kept: it leaves the flag
    alone when it finishes, raises it when it makes a call of the
    action, and hands over a continuation of the right kind. *)
Definition respects {S C} (flag : S -> bool) (mine : C -> bool)
    (h : S -> run S C) (s : S) : Prop :=
  match h s with
  | Finished s' => flag s' = flag s
  | Awaiting s' c k =>
      (if mine c then flag s = false /\ flag s' = true else flag s' = flag s) /\
      forall o st, flag (fst (k o st)) = if mine c then false else flag st
  end.

End Guard.

Module Kinds.

Definition isStake (c : Staking.call) : bool :=
  match c with Staking.stakeSTX _ => true | _ => false end.
Definition isUnstake (c : Staking.call) : bool :=
  match c with Staking.requestUnstake _ => true | _ => false end.
Definition isRegister (c : Services.call) : bool :=
  match c with Services.registerService _ _ => true | _ => false end.
Definition isPay (c : Services.call) : bool :=
  match c with Services.payForService _ => true | _ => false end.
Definition isCreate (c : Launchpad.call) : bool := true.

End Kinds.

(* ================================================================== *)
(** * Form contents used as examples *)
(* ================================================================== *)

Module Scenarios.
Import JS Async.

(** The token creation form filled in with valid values. *)
Definition tokenForm : Launchpad.state :=
  Launchpad.State (js "My Token") "" (js "MTK") "" (js "6") ""
                  (js "1000000") "" false.

(** The staking page with valid amounts. *)
Definition stakingForm : Staking.state :=
  Staking.State (js "5") "" (js "2") "" false false.

(** The services page with valid entries. *)
Definition servicesForm : Services.state :=
  Services.State (js "Web Development") "" (js "2.5") "" (js "7") "" false false.

(** The listing form with token 1 priced at 1.5 STX. *)
Definition listingForm : Marketplace.state :=
  Marketplace.setListPrice (js "1.5")
    (Marketplace.setListTokenId (js "1") Marketplace.initial).

(** The listing form with two invalid entries. *)
Definition badListingForm : Marketplace.state :=
  Marketplace.setListPrice (js "0.0005")
    (Marketplace.setListTokenId (js "-1") Marketplace.initial).

(** A hook validator that rejects whatever it is given. *)
Definition rejectTitle : FormHook.validator jsstring :=
  fun _ => FormHook.Result false (Some "Title is required").

(** A hook form in use: the price field has been touched and carries an
    error, the title field has not been looked at yet. *)
Definition hookInUse : FormHook.state jsstring :=
  FormHook.State {[ "title" := js "" ; "price" := js "x" ]}
                 {[ "price" := Some "Price must be a positive number" ]}
                 {[ "price" := true ]}.

End Scenarios.

(* ================================================================== *)
(** * Properties *)
(* ================================================================== *)

Import JS Async Fields.

(** Splits on the conditions of the [if]s in the goal, outermost first. *)
Ltac split_ifs :=
  repeat match goal with
         | |- context [if ?b then _ else _] => destruct b eqn:?
         end.

Ltac unfold_monad := unfold orM, notM, bind, exec, ret in *.

(** ** White space *)

Lemma trimStart_blank (v : jsstring) : blank v = true -> trimStart v = [].
Proof.
  induction v as [|c r IH]; simpl; [reflexivity|].
  intros H. apply andb_true_iff in H as [Hc Hr].
  rewrite Hc. auto.
Qed.

Lemma trim_blank (v : jsstring) : blank v = true -> trim v = [].
Proof.
  intros H. unfold trim. rewrite (trimStart_blank v H). reflexivity.
Qed.

Lemma trimStart_nil_blank (v : jsstring) : trimStart v = [] -> blank v = true.
Proof.
  induction v as [|c r IH]; simpl; [reflexivity|].
  destruct (isWhiteSpace c); [auto | discriminate].
Qed.

Lemma trim_nil_blank (v : jsstring) : trim v = [] -> blank v = true.
Proof.
  unfold trim, trimEnd. intros H.
  apply (f_equal (@rev N)) in H. rewrite rev_involutive in H. simpl in H.
  apply trimStart_nil_blank in H.
  unfold blank in *.
  rewrite forallb_forall in H.
  destruct (trimStart v) as [|c r] eqn:E; [now apply trimStart_nil_blank|].
  assert (Hin : forall x, In x (c :: r) -> isWhiteSpace x = true).
  { intros x Hx. apply H. apply in_rev. rewrite rev_involutive. exact Hx. }
  clear H. exfalso.
  assert (Hc : isWhiteSpace c = true) by (apply Hin; left; reflexivity).
  clear Hin. revert E Hc. clear.
  induction v as [|d v IH]; simpl; [discriminate|].
  destruct (isWhiteSpace d) eqn:Hd; [exact IH|].
  intros E Hc. injection E as -> _. congruence.
Qed.

Lemma parseInt_blank (v : jsstring) (radix : N) :
  blank v = true -> parseInt v radix = NaN.
Proof.
  intros H. unfold parseInt. rewrite (trimStart_blank v H). simpl.
  split_ifs; reflexivity.
Qed.

(** ** Each validator sets its own error and nothing else, and its answer
    does not depend on the state it runs in *)

Ltac validator_spec :=
  intros; unfold accepts, message, check;
  match goal with |- ?f _ _ = _ => unfold f | |- ?f _ _ _ = _ => unfold f end;
  unfold_monad; split_ifs; reflexivity.

Lemma validateName_spec v s :
  Launchpad.validateName v s
  = (accepts TokenName v, Launchpad.setNameError (message TokenName v) s).
Proof. validator_spec. Qed.

Lemma validateSymbol_spec v s :
  Launchpad.validateSymbol v s
  = (accepts TokenSymbol v, Launchpad.setSymbolError (message TokenSymbol v) s).
Proof. validator_spec. Qed.

Lemma validateDecimals_spec v s :
  Launchpad.validateDecimals v s
  = (accepts TokenDecimals v, Launchpad.setDecimalsError (message TokenDecimals v) s).
Proof. validator_spec. Qed.

Lemma validateSupply_spec v s :
  Launchpad.validateSupply v s
  = (accepts TokenSupply v, Launchpad.setSupplyError (message TokenSupply v) s).
Proof. validator_spec. Qed.

Lemma validateUri_spec v s :
  Marketplace.validateUri v s
  = (accepts MintUri v, Marketplace.setMintUriError (message MintUri v) s).
Proof. validator_spec. Qed.

Lemma validateTokenId_list_spec v s :
  Marketplace.validateTokenId v Marketplace.list_ s
  = (accepts ListTokenId v, Marketplace.setListTokenIdError (message ListTokenId v) s).
Proof. validator_spec. Qed.

Lemma validateTokenId_buy_spec v s :
  Marketplace.validateTokenId v Marketplace.buy_ s
  = (accepts BuyTokenId v, Marketplace.setBuyTokenIdError (message BuyTokenId v) s).
Proof. validator_spec. Qed.

Lemma validateListPrice_spec v s :
  Marketplace.validatePrice v s
  = (accepts ListPrice v, Marketplace.setListPriceError (message ListPrice v) s).
Proof. validator_spec. Qed.

Lemma validateStakeAmount_spec v s :
  Staking.validateStakeAmount v s
  = (accepts StakeAmount v, Staking.setStakeAmountError (message StakeAmount v) s).
Proof. validator_spec. Qed.

Lemma validateUnstakeAmount_spec v s :
  Staking.validateUnstakeAmount v s
  = (accepts UnstakeAmount v, Staking.setUnstakeAmountError (message UnstakeAmount v) s).
Proof. validator_spec. Qed.

Lemma validateTitle_spec v s :
  Services.validateTitle v s
  = (accepts ServiceTitle v, Services.setTitleError (message ServiceTitle v) s).
Proof. validator_spec. Qed.

Lemma validateServicePrice_spec v s :
  Services.validatePrice v s
  = (accepts ServicePrice v, Services.setPriceError (message ServicePrice v) s).
Proof. validator_spec. Qed.

Lemma validateServiceId_spec v s :
  Services.validateServiceId v s
  = (accepts ServiceId v, Services.setServiceIdError (message ServiceId v) s).
Proof. validator_spec. Qed.

(** A validator that accepts leaves the empty message. *)
Lemma accepted_message_empty f v : accepts f v = true -> message f v = "".
Proof.
  unfold accepts, message, check.
  destruct f;
    match goal with |- context [let '(_, _) := ?g _ _ in _] => unfold g
                  | |- context [let '(_, _) := ?g _ _ _ in _] => unfold g end;
    unfold_monad; split_ifs; simpl; congruence.
Qed.

(** A validator that rejects leaves a message that is not empty. *)
Lemma rejected_message_nonempty f v : accepts f v = false -> nonEmpty (message f v) = true.
Proof.
  unfold accepts, message, check.
  destruct f;
    match goal with |- context [let '(_, _) := ?g _ _ in _] => unfold g
                  | |- context [let '(_, _) := ?g _ _ _ in _] => unfold g end;
    unfold_monad; split_ifs; simpl; try congruence;
    destruct Marketplace.list_; simpl; congruence.
Qed.

(** ** What each submit handler does, in terms of its validators *)

Ltac handler_cases :=
  unfold_monad;
  rewrite ?validateName_spec, ?validateSymbol_spec, ?validateDecimals_spec,
    ?validateSupply_spec, ?validateUri_spec, ?validateTokenId_list_spec,
    ?validateTokenId_buy_spec, ?validateListPrice_spec,
    ?validateStakeAmount_spec, ?validateUnstakeAmount_spec,
    ?validateTitle_spec, ?validateServicePrice_spec, ?validateServiceId_spec.

Lemma handleCreate_rejected s :
  accepts TokenName (Launchpad.name s) && accepts TokenSymbol (Launchpad.symbol s) &&
  accepts TokenDecimals (Launchpad.decimals s) && accepts TokenSupply (Launchpad.supply s)
  = false ->
  callsOf (Launchpad.handleCreate s) = [].
Proof.
  unfold Launchpad.handleCreate. handler_cases.
  destruct (accepts TokenName _), (accepts TokenSymbol _),
    (accepts TokenDecimals _), (accepts TokenSupply _);
    simpl; intros; (reflexivity || discriminate).
Qed.

Lemma handleCreate_accepted s :
  accepts TokenName (Launchpad.name s) = true ->
  accepts TokenSymbol (Launchpad.symbol s) = true ->
  accepts TokenDecimals (Launchpad.decimals s) = true ->
  accepts TokenSupply (Launchpad.supply s) = true ->
  callsOf (Launchpad.handleCreate s)
  = [Launchpad.createToken (Launchpad.name s) (Launchpad.symbol s)
       (parseInt (Launchpad.decimals s) 0)
       (mul (parseInt (Launchpad.supply s) 0)
            (pow10 (parseInt (Launchpad.decimals s) 0)))].
Proof.
  intros H1 H2 H3 H4.
  unfold Launchpad.handleCreate. handler_cases.
  rewrite H1, H2, H3, H4. reflexivity.
Qed.

Lemma handleMint_rejected s :
  accepts MintUri (Marketplace.mintUri s) = false ->
  callsOf (Marketplace.handleMint s) = [].
Proof.
  intros H. unfold Marketplace.handleMint. handler_cases. rewrite H. reflexivity.
Qed.

Lemma handleList_rejected s :
  accepts ListTokenId (Marketplace.listTokenId s) &&
  accepts ListPrice (Marketplace.listPrice s) = false ->
  callsOf (Marketplace.handleList s) = [].
Proof.
  unfold Marketplace.handleList. handler_cases.
  destruct (accepts ListTokenId _), (accepts ListPrice _);
    simpl; intros; (reflexivity || discriminate).
Qed.

Lemma handleBuy_rejected s :
  accepts BuyTokenId (Marketplace.buyTokenId s) = false ->
  callsOf (Marketplace.handleBuy s) = [].
Proof.
  intros H. unfold Marketplace.handleBuy. handler_cases. rewrite H. reflexivity.
Qed.

Lemma handleStake_rejected s :
  accepts StakeAmount (Staking.stakeAmount s) = false ->
  callsOf (Staking.handleStake s) = [].
Proof.
  intros H. unfold Staking.handleStake. handler_cases. rewrite H. reflexivity.
Qed.

Lemma handleUnstake_rejected s :
  accepts UnstakeAmount (Staking.unstakeAmount s) = false ->
  callsOf (Staking.handleUnstake s) = [].
Proof.
  intros H. unfold Staking.handleUnstake. handler_cases. rewrite H. reflexivity.
Qed.

Lemma handleRegister_rejected s :
  accepts ServiceTitle (Services.title s) &&
  accepts ServicePrice (Services.price s) = false ->
  callsOf (Services.handleRegister s) = [].
Proof.
  unfold Services.handleRegister. handler_cases.
  destruct (accepts ServiceTitle _), (accepts ServicePrice _);
    simpl; intros; (reflexivity || discriminate).
Qed.

Lemma handlePay_rejected s :
  accepts ServiceId (Services.serviceId s) = false ->
  callsOf (Services.handlePay s) = [].
Proof.
  intros H. unfold Services.handlePay. handler_cases. rewrite H. reflexivity.
Qed.

Lemma handleList_accepted s :
  accepts ListTokenId (Marketplace.listTokenId s) = true ->
  accepts ListPrice (Marketplace.listPrice s) = true ->
  Marketplace.handleList s
  = Awaiting
      (Marketplace.setListPriceError "" (Marketplace.setListTokenIdError "" s))
      (Marketplace.listNFT (parseInt (Marketplace.listTokenId s) 0)
         (mul (parseInt (Marketplace.listPrice s) 0) (ofZ 1000000)))
      (awaitThen (fun st => Marketplace.setListPrice [] (Marketplace.setListTokenId [] st))).
Proof.
  intros H1 H2. unfold Marketplace.handleList. handler_cases.
  rewrite (accepted_message_empty _ _ H1), (accepted_message_empty _ _ H2), H1, H2.
  reflexivity.
Qed.


(** ** The useFormValidation hook: what [validateAll] computes *)

Section HookFacts.
Context {V : Type}.
Variable validators : gmap string (FormHook.validator V).

Lemma validateAll_fold (vals : gmap string V) :
  let r := map_fold (FormHook.validateField vals) (∅, true) validators in
  (forall field, r.1 !! field = validators !! field ≫= FormHook.verdict vals field) /\
  (r.2 = true <->
   forall field (validator : FormHook.validator V), validators !! field = Some validator ->
     FormHook.valid (validator (vals !! field)) = true).
Proof.
  cbv zeta.
  apply (map_fold_weak_ind
    (fun r (m : gmap string (FormHook.validator V)) =>
       (forall field, r.1 !! field = m !! field ≫= FormHook.verdict vals field) /\
       (r.2 = true <->
        forall field (validator : FormHook.validator V), m !! field = Some validator ->
          FormHook.valid (validator (vals !! field)) = true))).
  - split.
    + intros field. rewrite !lookup_empty. reflexivity.
    + split; [|reflexivity]. intros _ field validator H.
      rewrite lookup_empty in H. discriminate.
  - intros i x m [errs ok] Hi [IHe IHv]. simpl in IHe, IHv.
    unfold FormHook.validateField.
    destruct (FormHook.valid (x (vals !! i))) eqn:Hx; simpl.
    + split.
      * intros field. rewrite IHe.
        destruct (decide (field = i)) as [->|Hne].
        -- rewrite lookup_insert_eq, Hi. simpl. unfold FormHook.verdict. rewrite Hx. reflexivity.
        -- rewrite lookup_insert_ne by congruence. reflexivity.
      * rewrite IHv. split.
        -- intros H field validator Hl.
           destruct (decide (field = i)) as [->|Hne].
           ++ rewrite lookup_insert_eq in Hl. injection Hl as <-. exact Hx.
           ++ rewrite lookup_insert_ne in Hl by congruence. eauto.
        -- intros H field validator Hl. apply H.
           rewrite lookup_insert_ne; [exact Hl|]. intros E. subst. rewrite Hi in Hl. discriminate.
    + split.
      * intros field.
        destruct (decide (field = i)) as [->|Hne].
        -- rewrite !lookup_insert_eq. simpl. unfold FormHook.verdict. rewrite Hx. reflexivity.
        -- rewrite !lookup_insert_ne by congruence. apply IHe.
      * split; [discriminate|]. intros H.
        specialize (H i x). rewrite lookup_insert_eq in H.
        specialize (H eq_refl). congruence.
Qed.

Lemma validateAll_errors (st : FormHook.state V) (field : string) :
  FormHook.errors (FormHook.validateAll validators st).2 !! field
  = validators !! field ≫= FormHook.verdict (FormHook.values st) field.
Proof.
  unfold FormHook.validateAll.
  pose proof (validateAll_fold (FormHook.values st)) as [He _].
  destruct (map_fold _ _ _) as [errs ok]. simpl in *. apply He.
Qed.

Lemma validateAll_valid (st : FormHook.state V) :
  (FormHook.validateAll validators st).1 = true <->
  forall field (validator : FormHook.validator V), validators !! field = Some validator ->
    FormHook.valid (validator (FormHook.values st !! field)) = true.
Proof.
  unfold FormHook.validateAll.
  pose proof (validateAll_fold (FormHook.values st)) as [_ Hv].
  destruct (map_fold _ _ _) as [errs ok]. simpl in *. exact Hv.
Qed.

Lemma validateAll_values (st : FormHook.state V) :
  FormHook.values (FormHook.validateAll validators st).2 = FormHook.values st /\
  FormHook.touched (FormHook.validateAll validators st).2 = FormHook.touched st.
Proof.
  unfold FormHook.validateAll.
  destruct (map_fold _ _ _) as [errs ok]. split; reflexivity.
Qed.
End HookFacts.

(* ------------------------------------------------------------------ *)
(** ** The in-flight flag *)
(* ------------------------------------------------------------------ *)

Ltac flag_cleared :=
  intros s s1 c k; handler_cases;
  repeat match goal with
         | |- context [accepts ?f ?v] => destruct (accepts f v)
         end;
  simpl; intros H; [inversion H; subst; clear H | discriminate H ..];
  split; [reflexivity | intros [] st; reflexivity].

(** C1: every submit handler that sets an in-flight flag (launchpad
    create, stake, unstake, register service, pay for service) has the
    flag true while its external call is pending, and whenever that call
    settles, fulfilled or rejected and whatever the state has become
    meanwhile, the continuation leaves the flag false: the
    [finally] block runs on both paths. *)
Theorem in_flight_flag_cleared_on_settlement :
  (forall s s1 c k, Launchpad.handleCreate s = Awaiting s1 c k ->
     Launchpad.isLoading s1 = true /\
     forall o st, Launchpad.isLoading (fst (k o st)) = false) /\
  (forall s s1 c k, Staking.handleStake s = Awaiting s1 c k ->
     Staking.isStaking s1 = true /\
     forall o st, Staking.isStaking (fst (k o st)) = false) /\
  (forall s s1 c k, Staking.handleUnstake s = Awaiting s1 c k ->
     Staking.isUnstaking s1 = true /\
     forall o st, Staking.isUnstaking (fst (k o st)) = false) /\
  (forall s s1 c k, Services.handleRegister s = Awaiting s1 c k ->
     Services.isRegistering s1 = true /\
     forall o st, Services.isRegistering (fst (k o st)) = false) /\
  (forall s s1 c k, Services.handlePay s = Awaiting s1 c k ->
     Services.isPaying s1 = true /\
     forall o st, Services.isPaying (fst (k o st)) = false).
Proof.
  split; [|split; [|split; [|split]]].
  - unfold Launchpad.handleCreate. flag_cleared.
  - unfold Staking.handleStake. flag_cleared.
  - unfold Staking.handleUnstake. flag_cleared.
  - unfold Services.handleRegister. flag_cleared.
  - unfold Services.handlePay. flag_cleared.
Qed.

Lemma in_flight_flag_cleared_witness :
  (exists s1 c k, Launchpad.handleCreate Scenarios.tokenForm = Awaiting s1 c k /\
     Launchpad.isLoading s1 = true /\
     forall o st, Launchpad.isLoading (fst (k o st)) = false) /\
  (exists s1 c k, Staking.handleStake Scenarios.stakingForm = Awaiting s1 c k /\
     Staking.isStaking s1 = true /\
     forall o st, Staking.isStaking (fst (k o st)) = false) /\
  (exists s1 c k, Staking.handleUnstake Scenarios.stakingForm = Awaiting s1 c k /\
     Staking.isUnstaking s1 = true /\
     forall o st, Staking.isUnstaking (fst (k o st)) = false) /\
  (exists s1 c k, Services.handleRegister Scenarios.servicesForm = Awaiting s1 c k /\
     Services.isRegistering s1 = true /\
     forall o st, Services.isRegistering (fst (k o st)) = false) /\
  (exists s1 c k, Services.handlePay Scenarios.servicesForm = Awaiting s1 c k /\
     Services.isPaying s1 = true /\
     forall o st, Services.isPaying (fst (k o st)) = false).
Proof.
  pose proof in_flight_flag_cleared_on_settlement as (H1 & H2 & H3 & H4 & H5).
  split; [|split; [|split; [|split]]].
  - eexists _, _, _. split; [reflexivity|]. eapply (H1 Scenarios.tokenForm). reflexivity.
  - eexists _, _, _. split; [reflexivity|]. eapply (H2 Scenarios.stakingForm). reflexivity.
  - eexists _, _, _. split; [reflexivity|]. eapply (H3 Scenarios.stakingForm). reflexivity.
  - eexists _, _, _. split; [reflexivity|]. eapply (H4 Scenarios.servicesForm). reflexivity.
  - eexists _, _, _. split; [reflexivity|]. eapply (H5 Scenarios.servicesForm). reflexivity.
Defined.

(* ------------------------------------------------------------------ *)
(** ** Submission gating *)
(* ------------------------------------------------------------------ *)

(** C2 at the listing form of the marketplace page: a token ID of -1 is
    submitted and rejected, which stores the token-ID error; the values
    are then changed to token 1 at price 2 (changing a value does not
    touch the error); at that moment the token-ID field still has its
    non-empty error, no call has been made, and, the List button having
    no disabled state, submitting calls the external list action. *)
Lemma stale_error_does_not_block_submit :
  let p := Marketplace.after
             [Marketplace.ChangeListTokenId (js "-1"); Marketplace.SubmitList;
              Marketplace.ChangeListTokenId (js "1");
              Marketplace.ChangeListPrice (js "2")] in
  nonEmpty (Marketplace.listTokenIdError (ui p)) = true /\
  calls p = [] /\
  calls (Marketplace.step p Marketplace.SubmitList)
  = [Marketplace.listNFT (ofZ 1) (ofZ 2000000)].
Proof. vm_compute. repeat split. Qed.

(** Gating inside the handlers: whenever the current value of any field
    of a form is rejected by that field's validator, the submit handler
    makes no call to the external action, and [validateAll] of the hook
    answers false as soon as one validator rejects its field's current
    value. *)
Theorem submit_gated_by_validation :
  (forall s,
     accepts TokenName (Launchpad.name s) = false \/
     accepts TokenSymbol (Launchpad.symbol s) = false \/
     accepts TokenDecimals (Launchpad.decimals s) = false \/
     accepts TokenSupply (Launchpad.supply s) = false ->
     callsOf (Launchpad.handleCreate s) = []) /\
  (forall s, accepts MintUri (Marketplace.mintUri s) = false ->
     callsOf (Marketplace.handleMint s) = []) /\
  (forall s,
     accepts ListTokenId (Marketplace.listTokenId s) = false \/
     accepts ListPrice (Marketplace.listPrice s) = false ->
     callsOf (Marketplace.handleList s) = []) /\
  (forall s, accepts BuyTokenId (Marketplace.buyTokenId s) = false ->
     callsOf (Marketplace.handleBuy s) = []) /\
  (forall s, accepts StakeAmount (Staking.stakeAmount s) = false ->
     callsOf (Staking.handleStake s) = []) /\
  (forall s, accepts UnstakeAmount (Staking.unstakeAmount s) = false ->
     callsOf (Staking.handleUnstake s) = []) /\
  (forall s,
     accepts ServiceTitle (Services.title s) = false \/
     accepts ServicePrice (Services.price s) = false ->
     callsOf (Services.handleRegister s) = []) /\
  (forall s, accepts ServiceId (Services.serviceId s) = false ->
     callsOf (Services.handlePay s) = []) /\
  (forall (V : Type) (validators : gmap string (FormHook.validator V))
          (st : FormHook.state V) (field : string)
          (validator : FormHook.validator V),
     validators !! field = Some validator ->
     FormHook.valid (validator (FormHook.values st !! field)) = false ->
     (FormHook.validateAll validators st).1 = false).
Proof.
  repeat match goal with |- _ /\ _ => split end.
  - intros s H. apply handleCreate_rejected.
    destruct H as [H|[H|[H|H]]]; rewrite H;
      rewrite ?andb_false_r, ?andb_false_l; reflexivity.
  - apply handleMint_rejected.
  - intros s H. apply handleList_rejected.
    destruct H as [H|H]; rewrite H; rewrite ?andb_false_r; reflexivity.
  - apply handleBuy_rejected.
  - apply handleStake_rejected.
  - apply handleUnstake_rejected.
  - intros s H. apply handleRegister_rejected.
    destruct H as [H|H]; rewrite H; rewrite ?andb_false_r; reflexivity.
  - apply handlePay_rejected.
  - intros V validators st field validator Hl Hv.
    destruct ((FormHook.validateAll validators st).1) eqn:E; [|reflexivity].
    rewrite validateAll_valid in E. specialize (E field validator Hl). congruence.
Qed.

Lemma submit_gated_by_validation_witness :
  callsOf (Launchpad.handleCreate Launchpad.initial) = [] /\
  callsOf (Marketplace.handleMint Marketplace.initial) = [] /\
  callsOf (Marketplace.handleList Scenarios.badListingForm) = [] /\
  callsOf (Marketplace.handleBuy Marketplace.initial) = [] /\
  callsOf (Staking.handleStake Staking.initial) = [] /\
  callsOf (Staking.handleUnstake Staking.initial) = [] /\
  callsOf (Services.handleRegister Services.initial) = [] /\
  callsOf (Services.handlePay Services.initial) = [] /\
  (FormHook.validateAll
     {[ "title" := Scenarios.rejectTitle ]} (FormHook.mounted ∅)).1 = false.
Proof.
  pose proof submit_gated_by_validation
    as (H1 & H2 & H3 & H4 & H5 & H6 & H7 & H8 & H9).
  repeat match goal with |- _ /\ _ => split end.
  - apply H1. left. reflexivity.
  - apply H2. reflexivity.
  - apply H3. left. reflexivity.
  - apply H4. reflexivity.
  - apply H5. reflexivity.
  - apply H6. reflexivity.
  - apply H7. left. reflexivity.
  - apply H8. reflexivity.
  - eapply (H9 _ _ _ "title"); [apply lookup_singleton_eq | reflexivity].
Defined.

(* ------------------------------------------------------------------ *)
(** ** Re-entrant submission *)
(* ------------------------------------------------------------------ *)

(** C3 at the listing form: the form is filled in with token 1 at price
    2 and submitted twice before anything settles.  The list button has
    no disabled state and the handler keeps no in-flight flag, so the
    external list action is called twice and both calls are pending. *)
Theorem list_submitted_twice_calls_twice :
  let p := Marketplace.after
             [Marketplace.ChangeListTokenId (js "1");
              Marketplace.ChangeListPrice (js "2");
              Marketplace.SubmitList; Marketplace.SubmitList] in
  calls p = [Marketplace.listNFT (ofZ 1) (ofZ 2000000);
             Marketplace.listNFT (ofZ 1) (ofZ 2000000)] /\
  List.length (pending p) = 2%nat.
Proof. vm_compute. split; reflexivity. Qed.

(* ------------------------------------------------------------------ *)
(** ** Unit conversion of the listing price *)
(* ------------------------------------------------------------------ *)

(** C4 at the price 1.5: the price validator accepts it, and the list
    handler passes [parseInt("1.5") * 1000000], which is 1,000,000 and
    not the 1,500,000 that [parseFloat("1.5") * 1000000] gives. *)
Theorem list_price_truncated_to_integer :
  accepts ListPrice (js "1.5") = true /\
  callsOf (Marketplace.handleList Scenarios.listingForm)
  = [Marketplace.listNFT (ofZ 1) (ofZ 1000000)] /\
  mul (parseFloat (js "1.5")) (ofZ 1000000) = ofZ 1500000 /\
  ofZ 1000000 <> ofZ 1500000.
Proof.
  vm_compute. repeat split. discriminate.
Qed.

(* ------------------------------------------------------------------ *)
(** ** Token creation scenario *)
(* ------------------------------------------------------------------ *)

(** C5: with name "My Token", symbol "MTK", decimals "6" and supply
    "1000000" in the token-creation form, the four validators accept and
    the create handler calls the external create action exactly once,
    with name "My Token", symbol "MTK", decimals 6 and total supply
    1000000 x 10^6. *)
Theorem token_creation_scenario (s : Launchpad.state) :
  Launchpad.name s = js "My Token" ->
  Launchpad.symbol s = js "MTK" ->
  Launchpad.decimals s = js "6" ->
  Launchpad.supply s = js "1000000" ->
  accepts TokenName (Launchpad.name s) = true /\
  accepts TokenSymbol (Launchpad.symbol s) = true /\
  accepts TokenDecimals (Launchpad.decimals s) = true /\
  accepts TokenSupply (Launchpad.supply s) = true /\
  callsOf (Launchpad.handleCreate s)
  = [Launchpad.createToken (js "My Token") (js "MTK") (ofZ 6)
       (ofZ (1000000 * 10 ^ 6))].
Proof.
  intros Hn Hy Hd Hs.
  assert (A1 : accepts TokenName (Launchpad.name s) = true)
    by (rewrite Hn; vm_compute; reflexivity).
  assert (A2 : accepts TokenSymbol (Launchpad.symbol s) = true)
    by (rewrite Hy; vm_compute; reflexivity).
  assert (A3 : accepts TokenDecimals (Launchpad.decimals s) = true)
    by (rewrite Hd; vm_compute; reflexivity).
  assert (A4 : accepts TokenSupply (Launchpad.supply s) = true)
    by (rewrite Hs; vm_compute; reflexivity).
  repeat split; try assumption.
  rewrite (handleCreate_accepted s A1 A2 A3 A4), Hn, Hy, Hd, Hs.
  vm_compute. reflexivity.
Qed.

Lemma token_creation_scenario_witness :
  callsOf (Launchpad.handleCreate Scenarios.tokenForm)
  = [Launchpad.createToken (js "My Token") (js "MTK") (ofZ 6)
       (ofZ (1000000 * 10 ^ 6))].
Proof.
  apply (token_creation_scenario Scenarios.tokenForm); reflexivity.
Defined.

(* ------------------------------------------------------------------ *)
(** ** The required rule *)
(* ------------------------------------------------------------------ *)

(** C6, as stated, fails at the decimals validator: on the empty string
    it rejects with its range message, which is not a required error. *)
Lemma decimals_blank_is_range_error :
  blank (js "") = true /\
  check TokenDecimals (js "") = (false, "Decimals must be between 0 and 18") /\
  isRequiredMessage "Decimals must be between 0 and 18" = false.
Proof. vm_compute. repeat split. Qed.

(** C6, amended: for every field validator other than the decimals
    validator, an empty or whitespace-only input is rejected with the
    field's required error and no other error (the required check runs
    first); the decimals validator, which has no required rule, rejects
    such input with its range message. *)
Theorem blank_input_yields_required_error (f : field) (v : jsstring) :
  blank v = true ->
  match requiredMessage f with
  | Some m => check f v = (false, m) /\ isRequiredMessage m = true
  | None => f = TokenDecimals /\
            check f v = (false, "Decimals must be between 0 and 18")
  end.
Proof.
  intros H.
  destruct f; cbn [requiredMessage]; split;
    lazymatch goal with
    | |- check _ _ = _ =>
        unfold check;
        match goal with
        | |- context [let '(_, _) := ?g _ _ in _] => unfold g
        | |- context [let '(_, _) := ?g _ _ _ in _] => unfold g
        end;
        unfold_monad; rewrite ?(trim_blank v H), ?(parseInt_blank v _ H);
        reflexivity
    | |- _ => reflexivity
    end.
Qed.

Lemma blank_input_yields_required_error_witness :
  (check TokenName (js "   ") = (false, "Token name is required") /\
   isRequiredMessage "Token name is required" = true) /\
  (TokenDecimals = TokenDecimals /\
   check TokenDecimals (js " ") = (false, "Decimals must be between 0 and 18")).
Proof.
  split.
  - apply (blank_input_yields_required_error TokenName (js "   ")). reflexivity.
  - apply (blank_input_yields_required_error TokenDecimals (js " ")). reflexivity.
Defined.

(* ------------------------------------------------------------------ *)
(** ** The decimals field *)
(* ------------------------------------------------------------------ *)




(* ------------------------------------------------------------------ *)
(** ** Marketplace listing with two invalid fields *)
(* ------------------------------------------------------------------ *)

(** C8, as stated, fails: submitting the listing form with token ID "-1"
    and price "0.0005" leaves the price error empty, although the price
    validator on its own rejects "0.0005" with the minimum-price message:
    the handler joins the two checks with [||] and the second does not
    run once the first has failed. *)
Lemma bad_listing_price_error_not_set :
  Marketplace.listPriceError
    (stateOf (Marketplace.handleList Scenarios.badListingForm)) = "" /\
  check ListPrice (js "0.0005") = (false, "Minimum price is 0.001 STX").
Proof. vm_compute. split; reflexivity. Qed.

(** C8, amended: for token ID "-1" and price "0.0005" each field's
    validator, run on its own, rejects with its message (non-negative
    integer; minimum price); submitting the listing form with both
    makes no external call and sets the token-ID error, and leaves every
    other part of the state, the price error included, as it was. *)
Theorem bad_listing_reports_token_id_error (s : Marketplace.state) :
  Marketplace.listTokenId s = js "-1" ->
  Marketplace.listPrice s = js "0.0005" ->
  check ListTokenId (Marketplace.listTokenId s)
  = (false, "Token ID must be a non-negative integer") /\
  check ListPrice (Marketplace.listPrice s)
  = (false, "Minimum price is 0.001 STX") /\
  Marketplace.handleList s
  = Finished (Marketplace.setListTokenIdError
                "Token ID must be a non-negative integer" s).
Proof.
  intros Ht Hp. rewrite Ht, Hp.
  split; [vm_compute; reflexivity|]. split; [vm_compute; reflexivity|].
  unfold Marketplace.handleList. handler_cases. rewrite Ht.
  reflexivity.
Qed.

Lemma bad_listing_reports_token_id_error_witness :
  Marketplace.handleList Scenarios.badListingForm
  = Finished (Marketplace.setListTokenIdError
                "Token ID must be a non-negative integer" Scenarios.badListingForm).
Proof.
  apply (bad_listing_reports_token_id_error Scenarios.badListingForm); reflexivity.
Defined.

(* ------------------------------------------------------------------ *)
(** ** Stored errors and current values *)
(* ------------------------------------------------------------------ *)




(* ------------------------------------------------------------------ *)
(** ** Token name length *)
(* ------------------------------------------------------------------ *)

(** C10: the token-name validator applies the required rule to the
    trimmed value, and the 2-32 length bound and the
    alphanumeric-plus-space pattern to the raw value.  A value whose trim
    is empty gets the required error; any other value whose raw length is
    outside 2-32 gets the length error; any other value with a raw
    character outside letters, digits and white space gets the
    alphanumeric error; every remaining value is accepted.  So "a " (one
    letter and one space, raw length 2, trimmed length 1) is accepted
    although its trimmed length is below the minimum. *)
Theorem name_length_checked_on_raw_value :
  (forall v, trim v = [] ->
     check TokenName v = (false, "Token name is required")) /\
  (forall v, trim v <> [] ->
     (List.length v < 2 \/ 32 < List.length v)%nat ->
     check TokenName v = (false, "Token name must be 2-32 characters")) /\
  (forall v, trim v <> [] ->
     (2 <= List.length v <= 32)%nat ->
     (exists c, In c v /\
        (isLower c || isUpper c || isDigit c || isWhiteSpace c) = false) ->
     check TokenName v = (false, "Token name must be alphanumeric")) /\
  (forall v, trim v <> [] ->
     (2 <= List.length v <= 32)%nat ->
     (forall c, In c v ->
        (isLower c || isUpper c || isDigit c || isWhiteSpace c) = true) ->
     check TokenName v = (true, "")) /\
  List.length (js "a ") = 2%nat /\
  List.length (trim (js "a ")) = 1%nat /\
  (forall s, Launchpad.validateName (js "a ") s = (true, Launchpad.setNameError "" s)) /\
  exists v, (List.length (trim v) < 2)%nat /\ accepts TokenName v = true.
Proof.
  assert (Hlen : forall v : jsstring,
            ((N.of_nat (List.length v) <? 2)%N
             || (32 <? N.of_nat (List.length v))%N = false)
            <-> (2 <= List.length v <= 32)%nat).
  { intros v. rewrite orb_false_iff, !N.ltb_ge. lia. }
  split; [|split; [|split; [|split]]].
  - intros v Hv. unfold check, Launchpad.validateName. unfold_monad.
    rewrite Hv. reflexivity.
  - intros v Hv Hl. unfold check, Launchpad.validateName, strlen. unfold_monad.
    destruct (trim v) as [|c r]; [congruence|]. cbn [truthy negb].
    destruct ((N.of_nat (List.length v) <? 2)%N || (32 <? N.of_nat (List.length v))%N)
      eqn:E; [reflexivity|].
    apply (Hlen v) in E. lia.
  - intros v Hv Hl (c & Hin & Hc).
    unfold check, Launchpad.validateName, strlen, matchesPlus. unfold_monad.
    destruct (trim v) as [|c0 r]; [congruence|]. cbn [truthy negb].
    apply (Hlen v) in Hl. rewrite Hl.
    destruct (forallb _ v) eqn:F.
    + rewrite forallb_forall in F. rewrite (F c Hin) in Hc. discriminate.
    + rewrite andb_false_r. reflexivity.
  - intros v Hv Hl Hall.
    unfold check, Launchpad.validateName, strlen, matchesPlus. unfold_monad.
    destruct (trim v) as [|c0 r]; [congruence|]. cbn [truthy negb].
    pose proof Hl as Hl'. apply (Hlen v) in Hl'. rewrite Hl'.
    assert (F : forallb (fun c => isLower c || isUpper c || isDigit c || isWhiteSpace c) v
                = true) by (apply forallb_forall; exact Hall).
    rewrite F. destruct v; [simpl in Hl; lia | reflexivity].
  - split; [reflexivity|]. split; [reflexivity|]. split.
    + intros s. rewrite validateName_spec. reflexivity.
    + exists (js "a "). split; [vm_compute; lia | reflexivity].
Qed.

Lemma name_length_checked_on_raw_value_witness :
  check TokenName (js "  ") = (false, "Token name is required") /\
  check TokenName (js "a") = (false, "Token name must be 2-32 characters") /\
  check TokenName (js "a!") = (false, "Token name must be alphanumeric") /\
  check TokenName (js "a ") = (true, "").
Proof.
  pose proof name_length_checked_on_raw_value as (H1 & H2 & H3 & H4 & _).
  split; [|split; [|split]].
  - apply H1. reflexivity.
  - apply H2; [discriminate | left; vm_compute; lia].
  - apply H3; [discriminate | vm_compute; lia |].
    exists 33%N. split; [right; left; reflexivity | reflexivity].
  - apply H4; [discriminate | vm_compute; lia |].
    intros c [<-|[<-|[]]]; reflexivity.
Defined.

(* ================================================================== *)
(** * Further properties *)
(* ================================================================== *)

(** ** One pending call per guarded action *)

Section GuardFacts.
Context {S C : Type}.
Variable flag : S -> bool.
Variable mine : C -> bool.

Lemma countCalls_app (l1 l2 : list (C * continuation S)) :
  Guard.countCalls mine (l1 ++ l2)
  = (Guard.countCalls mine l1 + Guard.countCalls mine l2)%nat.
Proof.
  induction l1 as [|[c k] r IH]; simpl; [reflexivity|].
  rewrite IH. lia.
Qed.

Lemma countCalls_delete (l : list (C * continuation S)) (i : nat) c k :
  l !! i = Some (c, k) ->
  Guard.countCalls mine l
  = ((if mine c then 1 else 0) + Guard.countCalls mine (delete i l))%nat.
Proof.
  revert i. induction l as [|[c' k'] r IH]; intros [|i] H; simpl in *;
    try discriminate.
  - injection H as -> ->. reflexivity.
  - rewrite (IH i H). lia.
Qed.

Lemma Forall_delete_pending (P : C * continuation S -> Prop) l (i : nat) :
  Forall P l -> Forall P (delete i l).
Proof.
  intros H. revert i. induction H as [|x r Hx Hr IH]; intros [|i]; simpl;
    try constructor; auto.
Qed.

Lemma guarded_edit (f : S -> S) (p : page S C) :
  (forall s, flag (f s) = flag s) ->
  Guard.guarded flag mine p -> Guard.guarded flag mine (edit f p).
Proof.
  intros Hf [Hk Hc]. split; simpl; [exact Hk|]. rewrite Hf. exact Hc.
Qed.

Lemma guarded_dispatch (h : S -> run S C) (p : page S C) :
  Guard.respects flag mine h (ui p) ->
  Guard.guarded flag mine p -> Guard.guarded flag mine (dispatch h p).
Proof.
  unfold Guard.respects, dispatch. intros Hh [Hk Hc].
  destruct (h (ui p)) as [s'|s' c k]; split; simpl.
  - exact Hk.
  - rewrite Hh. exact Hc.
  - apply Forall_app. split; [exact Hk|].
    constructor; [|constructor]. simpl. apply Hh.
  - rewrite countCalls_app. simpl. destruct Hh as [Hf _].
    destruct (mine c).
    + destruct Hf as [H0 H1]. rewrite H0 in Hc. rewrite Hc, H1. reflexivity.
    + rewrite Hf, Hc. lia.
Qed.

Lemma guarded_trigger (disabled : S -> bool) (h : S -> run S C) (p : page S C) :
  (disabled (ui p) = false -> Guard.respects flag mine h (ui p)) ->
  Guard.guarded flag mine p ->
  Guard.guarded flag mine (trigger disabled h p).
Proof.
  unfold trigger. intros Hh Hg.
  destruct (disabled (ui p)); [exact Hg|].
  apply guarded_dispatch; auto.
Qed.

Lemma guarded_settle (i : nat) (o : settlement) (p : page S C) :
  Guard.guarded flag mine p -> Guard.guarded flag mine (settle i o p).
Proof.
  unfold settle. intros [Hk Hc].
  destruct (pending p !! i) as [[c k]|] eqn:E; [|split; assumption].
  split; simpl.
  - apply Forall_delete_pending. exact Hk.
  - rewrite Forall_forall in Hk.
    assert (Hin : (c, k) ∈ pending p).
    { eapply list_elem_of_lookup_2. exact E. }
    specialize (Hk _ Hin o (ui p)). simpl in Hk. rewrite Hk.
    rewrite (countCalls_delete _ _ _ _ E) in Hc.
    destruct (mine c), (flag (ui p)); simpl in *; lia.
Qed.
End GuardFacts.

Lemma countCalls_all {S C} (l : list (C * continuation S)) :
  Guard.countCalls (fun _ => true) l = List.length l.
Proof. induction l as [|[c k] r IH]; simpl; congruence. Qed.

(** Runs a handler symbolically: one case per combination of verdicts. *)
Ltac respects_cases :=
  unfold Guard.respects; handler_cases;
  repeat match goal with
         | |- context [accepts ?f ?v] => destruct (accepts f v)
         end;
  simpl; repeat split; auto; intros [] ?; reflexivity.

Lemma handleCreate_respects s :
  Launchpad.createDisabled s = false ->
  Guard.respects Launchpad.isLoading Kinds.isCreate Launchpad.handleCreate s.
Proof.
  unfold Launchpad.createDisabled. intros H.
  assert (Hl : Launchpad.isLoading s = false)
    by (destruct (Launchpad.isLoading s); [discriminate H | reflexivity]).
  unfold Launchpad.handleCreate. respects_cases.
Qed.

Lemma launchpad_guarded (evs : list Launchpad.event) (p : page Launchpad.state Launchpad.call) :
  Guard.guarded Launchpad.isLoading Kinds.isCreate p ->
  Guard.guarded Launchpad.isLoading Kinds.isCreate (fold_left Launchpad.step evs p).
Proof.
  revert p. induction evs as [|e evs IH]; intros p Hp; [exact Hp|].
  simpl. apply IH. destruct e; simpl.
  - apply guarded_edit; auto.
  - apply guarded_edit; auto. intros s. rewrite validateName_spec. reflexivity.
  - apply guarded_edit; auto.
  - apply guarded_edit; auto. intros s. rewrite validateSymbol_spec. reflexivity.
  - apply guarded_edit; auto.
  - apply guarded_edit; auto. intros s. rewrite validateDecimals_spec. reflexivity.
  - apply guarded_edit; auto.
  - apply guarded_edit; auto. intros s. rewrite validateSupply_spec. reflexivity.
  - apply guarded_trigger; auto using handleCreate_respects.
  - apply guarded_settle; auto.
Qed.

(** X1: on the launchpad page, whatever the user does and however the
    calls settle, at most one create call is pending, and one is pending
    exactly while [isLoading] is true. *)
Theorem launchpad_single_flight (evs : list Launchpad.event) :
  let p := Launchpad.after evs in
  List.length (pending p) = if Launchpad.isLoading (ui p) then 1%nat else 0%nat.
Proof.
  cbv zeta. rewrite <- countCalls_all.
  apply (launchpad_guarded evs Launchpad.mounted).
  split; [constructor | reflexivity].
Qed.

Lemma handleStake_respects_stake s :
  Staking.stakeDisabled s = false ->
  Guard.respects Staking.isStaking Kinds.isStake Staking.handleStake s.
Proof.
  unfold Staking.stakeDisabled. intros H.
  assert (Hl : Staking.isStaking s = false)
    by (destruct (Staking.isStaking s); [discriminate H | reflexivity]).
  unfold Staking.handleStake. respects_cases.
Qed.

Lemma handleStake_respects_unstake s :
  Guard.respects Staking.isUnstaking Kinds.isUnstake Staking.handleStake s.
Proof. unfold Staking.handleStake. respects_cases. Qed.

Lemma handleUnstake_respects_unstake s :
  Staking.unstakeDisabled s = false ->
  Guard.respects Staking.isUnstaking Kinds.isUnstake Staking.handleUnstake s.
Proof.
  unfold Staking.unstakeDisabled. intros H.
  assert (Hl : Staking.isUnstaking s = false)
    by (destruct (Staking.isUnstaking s); [discriminate H | reflexivity]).
  unfold Staking.handleUnstake. respects_cases.
Qed.

Lemma handleUnstake_respects_stake s :
  Guard.respects Staking.isStaking Kinds.isStake Staking.handleUnstake s.
Proof. unfold Staking.handleUnstake. respects_cases. Qed.

Lemma staking_guarded (evs : list Staking.event) (p : page Staking.state Staking.call) :
  Guard.guarded Staking.isStaking Kinds.isStake p /\
  Guard.guarded Staking.isUnstaking Kinds.isUnstake p ->
  Guard.guarded Staking.isStaking Kinds.isStake (fold_left Staking.step evs p) /\
  Guard.guarded Staking.isUnstaking Kinds.isUnstake (fold_left Staking.step evs p).
Proof.
  revert p. induction evs as [|e evs IH]; intros p Hp; [exact Hp|].
  simpl. apply IH. destruct Hp as [H1 H2]. destruct e; simpl; split.
  - apply guarded_edit; auto.
  - apply guarded_edit; auto.
  - apply guarded_edit; auto. intros s. rewrite validateStakeAmount_spec. reflexivity.
  - apply guarded_edit; auto. intros s. rewrite validateStakeAmount_spec. reflexivity.
  - apply guarded_edit; auto.
  - apply guarded_edit; auto.
  - apply guarded_edit; auto. intros s. rewrite validateUnstakeAmount_spec. reflexivity.
  - apply guarded_edit; auto. intros s. rewrite validateUnstakeAmount_spec. reflexivity.
  - apply guarded_trigger; auto using handleStake_respects_stake.
  - apply guarded_trigger; auto using handleStake_respects_unstake.
  - apply guarded_trigger; auto using handleUnstake_respects_stake.
  - apply guarded_trigger; auto using handleUnstake_respects_unstake.
  - apply guarded_settle; auto.
  - apply guarded_settle; auto.
Qed.

(** X2: on the staking page, whatever the user does and however the
    calls settle, at most one stake call and at most one unstake call are
    pending, and each is pending exactly while its own flag ([isStaking],
    [isUnstaking]) is true.  The two actions do not block each other:
    neither button's disabled state nor either handler's call depends on
    the other action's flag, and a stake call and an unstake call can be
    pending together. *)
Theorem staking_single_flight :
  (forall evs : list Staking.event,
     let p := Staking.after evs in
     Guard.countCalls Kinds.isStake (pending p)
     = (if Staking.isStaking (ui p) then 1%nat else 0%nat) /\
     Guard.countCalls Kinds.isUnstake (pending p)
     = (if Staking.isUnstaking (ui p) then 1%nat else 0%nat)) /\
  (forall s b,
     Staking.stakeDisabled (Staking.setIsUnstaking b s) = Staking.stakeDisabled s /\
     callsOf (Staking.handleStake (Staking.setIsUnstaking b s))
     = callsOf (Staking.handleStake s)) /\
  (forall s b,
     Staking.unstakeDisabled (Staking.setIsStaking b s) = Staking.unstakeDisabled s /\
     callsOf (Staking.handleUnstake (Staking.setIsStaking b s))
     = callsOf (Staking.handleUnstake s)) /\
  (let p := Staking.after
              [Staking.ChangeStakeAmount (js "5");
               Staking.ChangeUnstakeAmount (js "2");
               Staking.SubmitStake; Staking.SubmitUnstake] in
   Staking.isStaking (ui p) = true /\
   Staking.isUnstaking (ui p) = true /\
   calls p = [Staking.stakeSTX (ofZ 5000000); Staking.requestUnstake (ofZ 2000000)] /\
   List.length (pending p) = 2%nat).
Proof.
  split; [|split; [|split]].
  - intros evs. cbv zeta.
    destruct (staking_guarded evs Staking.mounted) as [[_ H1] [_ H2]].
    + split; (split; [constructor | reflexivity]).
    + split; assumption.
  - intros s b. split; [reflexivity|].
    unfold Staking.handleStake. handler_cases. cbn [Staking.stakeAmount Staking.setIsUnstaking].
    destruct (accepts StakeAmount _); reflexivity.
  - intros s b. split; [reflexivity|].
    unfold Staking.handleUnstake. handler_cases. cbn [Staking.unstakeAmount Staking.setIsStaking].
    destruct (accepts UnstakeAmount _); reflexivity.
  - vm_compute. repeat split.
Qed.

Lemma handleRegister_respects_register s :
  Services.registerDisabled s = false ->
  Guard.respects Services.isRegistering Kinds.isRegister Services.handleRegister s.
Proof.
  unfold Services.registerDisabled. intros H.
  assert (Hl : Services.isRegistering s = false)
    by (destruct (Services.isRegistering s); [discriminate H | reflexivity]).
  unfold Services.handleRegister. respects_cases.
Qed.

Lemma handleRegister_respects_pay s :
  Guard.respects Services.isPaying Kinds.isPay Services.handleRegister s.
Proof. unfold Services.handleRegister. respects_cases. Qed.

Lemma handlePay_respects_pay s :
  Services.payDisabled s = false ->
  Guard.respects Services.isPaying Kinds.isPay Services.handlePay s.
Proof.
  unfold Services.payDisabled. intros H.
  assert (Hl : Services.isPaying s = false)
    by (destruct (Services.isPaying s); [discriminate H | reflexivity]).
  unfold Services.handlePay. respects_cases.
Qed.

Lemma handlePay_respects_register s :
  Guard.respects Services.isRegistering Kinds.isRegister Services.handlePay s.
Proof. unfold Services.handlePay. respects_cases. Qed.

Lemma services_guarded (evs : list Services.event) (p : page Services.state Services.call) :
  Guard.guarded Services.isRegistering Kinds.isRegister p /\
  Guard.guarded Services.isPaying Kinds.isPay p ->
  Guard.guarded Services.isRegistering Kinds.isRegister (fold_left Services.step evs p) /\
  Guard.guarded Services.isPaying Kinds.isPay (fold_left Services.step evs p).
Proof.
  revert p. induction evs as [|e evs IH]; intros p Hp; [exact Hp|].
  simpl. apply IH. destruct Hp as [H1 H2]. destruct e; simpl; split.
  - apply guarded_edit; auto.
  - apply guarded_edit; auto.
  - apply guarded_edit; auto. intros s. rewrite validateTitle_spec. reflexivity.
  - apply guarded_edit; auto. intros s. rewrite validateTitle_spec. reflexivity.
  - apply guarded_edit; auto.
  - apply guarded_edit; auto.
  - apply guarded_edit; auto. intros s. rewrite validateServicePrice_spec. reflexivity.
  - apply guarded_edit; auto. intros s. rewrite validateServicePrice_spec. reflexivity.
  - apply guarded_edit; auto.
  - apply guarded_edit; auto.
  - apply guarded_edit; auto. intros s. rewrite validateServiceId_spec. reflexivity.
  - apply guarded_edit; auto. intros s. rewrite validateServiceId_spec. reflexivity.
  - apply guarded_trigger; auto using handleRegister_respects_register.
  - apply guarded_trigger; auto using handleRegister_respects_pay.
  - apply guarded_trigger; auto using handlePay_respects_register.
  - apply guarded_trigger; auto using handlePay_respects_pay.
  - apply guarded_settle; auto.
  - apply guarded_settle; auto.
Qed.

(** X3: on the services page, whatever the user does and however the
    calls settle, at most one register call and at most one pay call are
    pending, and each is pending exactly while its own flag
    ([isRegistering], [isPaying]) is true. *)
Theorem services_single_flight (evs : list Services.event) :
  let p := Services.after evs in
  Guard.countCalls Kinds.isRegister (pending p)
  = (if Services.isRegistering (ui p) then 1%nat else 0%nat) /\
  Guard.countCalls Kinds.isPay (pending p)
  = (if Services.isPaying (ui p) then 1%nat else 0%nat).
Proof.
  cbv zeta.
  destruct (services_guarded evs Services.mounted) as [[_ H1] [_ H2]].
  - split; (split; [constructor | reflexivity]).
  - split; assumption.
Qed.

(** ** What reaches the external actions *)

Ltac calls_cases :=
  intros; handler_cases;
  repeat match goal with
         | |- context [accepts ?f ?v] => destruct (accepts f v)
         end;
  reflexivity.

(** X4: each submit handler calls its external action exactly when every
    validator of its form accepts the current value, once, and with these
    arguments: amounts and the service price are [parseFloat(value) *
    1000000], the listing price is [parseInt(value) * 1000000], identifiers
    and decimals are [parseInt(value)], the total supply is
    [parseInt(supply) * Math.pow(10, parseInt(decimals))], and names,
    symbols, titles and URIs are passed as typed. *)
Theorem submit_calls_exactly_when_valid :
  (forall s, callsOf (Launchpad.handleCreate s)
     = if accepts TokenName (Launchpad.name s) &&
          accepts TokenSymbol (Launchpad.symbol s) &&
          accepts TokenDecimals (Launchpad.decimals s) &&
          accepts TokenSupply (Launchpad.supply s)
       then [Launchpad.createToken (Launchpad.name s) (Launchpad.symbol s)
               (parseInt (Launchpad.decimals s) 0)
               (mul (parseInt (Launchpad.supply s) 0)
                    (pow10 (parseInt (Launchpad.decimals s) 0)))]
       else []) /\
  (forall s, callsOf (Marketplace.handleMint s)
     = if accepts MintUri (Marketplace.mintUri s)
       then [Marketplace.mintNFT (Marketplace.mintUri s)] else []) /\
  (forall s, callsOf (Marketplace.handleList s)
     = if accepts ListTokenId (Marketplace.listTokenId s) &&
          accepts ListPrice (Marketplace.listPrice s)
       then [Marketplace.listNFT (parseInt (Marketplace.listTokenId s) 0)
               (mul (parseInt (Marketplace.listPrice s) 0) (ofZ 1000000))]
       else []) /\
  (forall s, callsOf (Marketplace.handleBuy s)
     = if accepts BuyTokenId (Marketplace.buyTokenId s)
       then [Marketplace.buyNFT (parseInt (Marketplace.buyTokenId s) 0)] else []) /\
  (forall s, callsOf (Staking.handleStake s)
     = if accepts StakeAmount (Staking.stakeAmount s)
       then [Staking.stakeSTX (mul (parseFloat (Staking.stakeAmount s)) (ofZ 1000000))]
       else []) /\
  (forall s, callsOf (Staking.handleUnstake s)
     = if accepts UnstakeAmount (Staking.unstakeAmount s)
       then [Staking.requestUnstake
               (mul (parseFloat (Staking.unstakeAmount s)) (ofZ 1000000))]
       else []) /\
  (forall s, callsOf (Services.handleRegister s)
     = if accepts ServiceTitle (Services.title s) &&
          accepts ServicePrice (Services.price s)
       then [Services.registerService (Services.title s)
               (mul (parseFloat (Services.price s)) (ofZ 1000000))]
       else []) /\
  (forall s, callsOf (Services.handlePay s)
     = if accepts ServiceId (Services.serviceId s)
       then [Services.payForService (parseInt (Services.serviceId s) 0)] else []).
Proof.
  repeat match goal with |- _ /\ _ => split end.
  - unfold Launchpad.handleCreate. calls_cases.
  - unfold Marketplace.handleMint. calls_cases.
  - unfold Marketplace.handleList. calls_cases.
  - unfold Marketplace.handleBuy. calls_cases.
  - unfold Staking.handleStake. calls_cases.
  - unfold Staking.handleUnstake. calls_cases.
  - unfold Services.handleRegister. calls_cases.
  - unfold Services.handlePay. calls_cases.
Qed.

(** ** Settlement *)

Ltac outcome_cases :=
  intros s s1 c k; handler_cases;
  repeat match goal with
         | |- context [accepts ?f ?v] => destruct (accepts f v)
         end;
  simpl; intros H; [inversion H; subst; clear H | discriminate H ..];
  intros st; split; reflexivity.

(** X5: when the external call of a handler with a [finally] block is
    fulfilled, the form's fields are reset to their initial values and
    the flag is cleared; when it is rejected, the fields keep what the
    user typed, the flag is cleared, and the rejection is thrown on to
    the caller of the handler. *)
Theorem settlement_resets_or_preserves :
  (forall s s1 c k, Launchpad.handleCreate s = Awaiting s1 c k -> forall st,
     k Fulfilled st
     = (Launchpad.setIsLoading false
          (Launchpad.setSupply [] (Launchpad.setDecimals (js "6")
             (Launchpad.setSymbol [] (Launchpad.setName [] st)))), Returned) /\
     k Rejected st = (Launchpad.setIsLoading false st, Threw)) /\
  (forall s s1 c k, Staking.handleStake s = Awaiting s1 c k -> forall st,
     k Fulfilled st
     = (Staking.setIsStaking false (Staking.setStakeAmount [] st), Returned) /\
     k Rejected st = (Staking.setIsStaking false st, Threw)) /\
  (forall s s1 c k, Staking.handleUnstake s = Awaiting s1 c k -> forall st,
     k Fulfilled st
     = (Staking.setIsUnstaking false (Staking.setUnstakeAmount [] st), Returned) /\
     k Rejected st = (Staking.setIsUnstaking false st, Threw)) /\
  (forall s s1 c k, Services.handleRegister s = Awaiting s1 c k -> forall st,
     k Fulfilled st
     = (Services.setIsRegistering false
          (Services.setPrice [] (Services.setTitle [] st)), Returned) /\
     k Rejected st = (Services.setIsRegistering false st, Threw)) /\
  (forall s s1 c k, Services.handlePay s = Awaiting s1 c k -> forall st,
     k Fulfilled st
     = (Services.setIsPaying false (Services.setServiceId [] st), Returned) /\
     k Rejected st = (Services.setIsPaying false st, Threw)).
Proof.
  split; [|split; [|split; [|split]]].
  - unfold Launchpad.handleCreate. outcome_cases.
  - unfold Staking.handleStake. outcome_cases.
  - unfold Staking.handleUnstake. outcome_cases.
  - unfold Services.handleRegister. outcome_cases.
  - unfold Services.handlePay. outcome_cases.
Qed.

Lemma settlement_resets_or_preserves_witness :
  exists s1 c k,
    Staking.handleStake Scenarios.stakingForm = Awaiting s1 c k /\
    k Fulfilled s1 = (Staking.State [] "" (js "2") "" false false, Returned) /\
    k Rejected s1 = (Staking.State (js "5") "" (js "2") "" false false, Threw).
Proof.
  pose proof settlement_resets_or_preserves as (_ & H & _).
  eexists _, _, _. split; [reflexivity|].
  eapply (H Scenarios.stakingForm). reflexivity.
Defined.

(** X6: the marketplace handlers have no [finally] block: when the call
    is rejected nothing in the state changes and the rejection is thrown
    on; when it is fulfilled only the submitted fields are emptied. *)
Theorem marketplace_settlement :
  (forall s s1 c k, Marketplace.handleMint s = Awaiting s1 c k -> forall st,
     k Fulfilled st = (Marketplace.setMintUri [] st, Returned) /\
     k Rejected st = (st, Threw)) /\
  (forall s s1 c k, Marketplace.handleList s = Awaiting s1 c k -> forall st,
     k Fulfilled st
     = (Marketplace.setListPrice [] (Marketplace.setListTokenId [] st), Returned) /\
     k Rejected st = (st, Threw)) /\
  (forall s s1 c k, Marketplace.handleBuy s = Awaiting s1 c k -> forall st,
     k Fulfilled st = (Marketplace.setBuyTokenId [] st, Returned) /\
     k Rejected st = (st, Threw)).
Proof.
  split; [|split].
  - unfold Marketplace.handleMint. outcome_cases.
  - unfold Marketplace.handleList. outcome_cases.
  - unfold Marketplace.handleBuy. outcome_cases.
Qed.

Lemma marketplace_settlement_witness :
  exists s1 c k,
    Marketplace.handleList Scenarios.listingForm = Awaiting s1 c k /\
    k Fulfilled s1 = (Marketplace.initial, Returned) /\
    k Rejected s1 = (Scenarios.listingForm, Threw).
Proof.
  pose proof marketplace_settlement as (_ & H & _).
  eexists _, _, _. split; [reflexivity|].
  eapply (H Scenarios.listingForm). reflexivity.
Defined.

(** ** An enabled button after validation *)

(** X7: on the launchpad page, when the four displayed errors are what
    the validators yield on the current values (as they are once every
    field has been left) and the create button is enabled, a click calls
    the external create action. *)
Theorem enabled_create_button_submits (s : Launchpad.state) :
  Launchpad.nameError s = message TokenName (Launchpad.name s) ->
  Launchpad.symbolError s = message TokenSymbol (Launchpad.symbol s) ->
  Launchpad.decimalsError s = message TokenDecimals (Launchpad.decimals s) ->
  Launchpad.supplyError s = message TokenSupply (Launchpad.supply s) ->
  Launchpad.createDisabled s = false ->
  callsOf (Launchpad.handleCreate s)
  = [Launchpad.createToken (Launchpad.name s) (Launchpad.symbol s)
       (parseInt (Launchpad.decimals s) 0)
       (mul (parseInt (Launchpad.supply s) 0)
            (pow10 (parseInt (Launchpad.decimals s) 0)))].
Proof.
  intros Hn Hy Hd Hs He. unfold Launchpad.createDisabled in He.
  rewrite Hn, Hy, Hd, Hs in He.
  repeat (apply orb_false_iff in He; destruct He as [He ?]).
  apply handleCreate_accepted;
    match goal with
    | |- accepts ?f ?v = true =>
        destruct (accepts f v) eqn:E; [reflexivity|];
        apply rejected_message_nonempty in E; congruence
    end.
Qed.

Lemma enabled_create_button_submits_witness :
  callsOf (Launchpad.handleCreate Scenarios.tokenForm)
  = [Launchpad.createToken (js "My Token") (js "MTK")
       (parseInt (js "6") 0)
       (mul (parseInt (js "1000000") 0) (pow10 (parseInt (js "6") 0)))].
Proof.
  apply (enabled_create_button_submits Scenarios.tokenForm); reflexivity.
Defined.

(** ** What the string validators accept *)

Lemma truthy_trim (v : jsstring) : truthy (trim v) = negb (blank v).
Proof.
  destruct (trim v) as [|c r] eqn:E; simpl.
  - rewrite (trim_nil_blank v E). reflexivity.
  - destruct (blank v) eqn:B; [|reflexivity].
    rewrite (trim_blank v B) in E. discriminate.
Qed.

Lemma whiteSpace_codes (c : N) :
  isWhiteSpace c = true ->
  (c <= 32 \/ c = 160 \/ 5760 <= c)%N.
Proof.
  unfold isWhiteSpace.
  repeat rewrite ?orb_true_iff, ?andb_true_iff, ?N.eqb_eq, ?N.leb_le.
  lia.
Qed.

Lemma upper_not_whiteSpace (c : N) : isUpper c = true -> isWhiteSpace c = false.
Proof.
  unfold isUpper. rewrite andb_true_iff, !N.leb_le. intros [H1 H2].
  destruct (isWhiteSpace c) eqn:E; [|reflexivity].
  apply whiteSpace_codes in E. lia.
Qed.

Lemma startsWith_cons (a : N) (p s : jsstring) :
  startsWith (a :: p) s = true -> exists r, s = a :: r.
Proof.
  destruct s as [|b r]; simpl; [discriminate|].
  rewrite andb_true_iff, N.eqb_eq. intros [-> _]. eauto.
Qed.

(** X8: the symbol validator accepts exactly the strings of two to five
    characters that are all upper-case letters A-Z (its required rule
    never decides anything on its own). *)
Theorem symbol_accepted_iff (v : jsstring) :
  accepts TokenSymbol v = true <->
  (2 <= List.length v <= 5)%nat /\ forallb isUpper v = true.
Proof.
  unfold accepts, check, Launchpad.validateSymbol, matchesPlus, strlen.
  unfold_monad. rewrite truthy_trim. split.
  - split_ifs; simpl; try discriminate. intros _.
    repeat match goal with
           | H : _ || _ = false |- _ => apply orb_false_iff in H; destruct H
           | H : negb _ = false |- _ => apply negb_false_iff in H
           | H : _ && _ = true |- _ => apply andb_true_iff in H; destruct H
           | H : (_ <? _)%N = false |- _ => apply N.ltb_ge in H
           end.
    split; [lia | assumption].
  - intros [Hlen Hup].
    assert (B : blank v = false).
    { destruct v as [|c r]; [simpl in Hlen; lia|].
      simpl in *. apply andb_true_iff in Hup as [Hc _].
      rewrite (upper_not_whiteSpace c Hc). reflexivity. }
    rewrite B. simpl.
    assert (L : ((N.of_nat (List.length v) <? 2) || (5 <? N.of_nat (List.length v)))%N = false).
    { apply orb_false_iff. rewrite !N.ltb_ge. lia. }
    rewrite L, Hup.
    destruct v; [simpl in Hlen; lia | reflexivity].
Qed.

(** X9: the token-name validator accepts exactly the strings that are not
    blank, have two to thirty-two characters (counted before trimming)
    and consist of letters a-z, A-Z, digits and white space only. *)
Theorem name_accepted_iff (v : jsstring) :
  accepts TokenName v = true <->
  blank v = false /\ (2 <= List.length v <= 32)%nat /\
  forallb (fun c => isLower c || isUpper c || isDigit c || isWhiteSpace c) v = true.
Proof.
  unfold accepts, check, Launchpad.validateName, matchesPlus, strlen.
  unfold_monad. rewrite truthy_trim. split.
  - split_ifs; simpl; try discriminate. intros _.
    repeat match goal with
           | H : _ || _ = false |- _ => apply orb_false_iff in H; destruct H
           | H : negb _ = false |- _ => apply negb_false_iff in H
           | H : negb _ = true |- _ => apply negb_true_iff in H
           | H : _ && _ = true |- _ => apply andb_true_iff in H; destruct H
           | H : (_ <? _)%N = false |- _ => apply N.ltb_ge in H
           end.
    repeat split; try lia; assumption.
  - intros (B & Hlen & Hcls). rewrite B. simpl.
    assert (L : ((N.of_nat (List.length v) <? 2) || (32 <? N.of_nat (List.length v)))%N = false).
    { apply orb_false_iff. rewrite !N.ltb_ge. lia. }
    rewrite L, Hcls.
    destruct v; [simpl in Hlen; lia | reflexivity].
Qed.

(** X10: the service-title validator accepts exactly the strings that are
    not blank and have three to sixty-four characters (counted before
    trimming); it has no character rule. *)
Theorem title_accepted_iff (v : jsstring) :
  accepts ServiceTitle v = true <->
  blank v = false /\ (3 <= List.length v <= 64)%nat.
Proof.
  unfold accepts, check, Services.validateTitle, strlen.
  unfold_monad. rewrite truthy_trim. split.
  - split_ifs; simpl; try discriminate. intros _.
    repeat match goal with
           | H : _ || _ = false |- _ => apply orb_false_iff in H; destruct H
           | H : negb _ = false |- _ => apply negb_false_iff in H
           | H : negb _ = true |- _ => apply negb_true_iff in H
           | H : (_ <? _)%N = false |- _ => apply N.ltb_ge in H
           end.
    split; [assumption | lia].
  - intros (B & Hlen). rewrite B. simpl.
    assert (L : ((N.of_nat (List.length v) <? 3) || (64 <? N.of_nat (List.length v)))%N = false).
    { apply orb_false_iff. rewrite !N.ltb_ge. lia. }
    rewrite L. reflexivity.
Qed.

(** X11: the URI validator accepts exactly the strings of at most 256
    characters that start with [ipfs://], [http://] or [https://]; white
    space before the scheme is not skipped. *)
Theorem uri_accepted_iff (v : jsstring) :
  accepts MintUri v = true <->
  (List.length v <= 256)%nat /\
  (startsWith (js "ipfs://") v || startsWith (js "http://") v ||
   startsWith (js "https://") v) = true.
Proof.
  unfold accepts, check, Marketplace.validateUri, strlen.
  unfold_monad. rewrite truthy_trim. split.
  - split_ifs; cbn [fst]; try discriminate. intros _.
    repeat match goal with
           | H : negb _ = false |- _ => apply negb_false_iff in H
           | H : (_ <? _)%N = false |- _ => apply N.ltb_ge in H
           end.
    split; [lia|].
    destruct (startsWith (js "ipfs://") v), (startsWith (js "http://") v),
      (startsWith (js "https://") v); simpl in *; congruence.
  - intros (Hlen & Hpre).
    assert (B : blank v = false).
    { assert (Hc : exists c r, v = c :: r /\ (c = 105 \/ c = 104)%N).
      { apply orb_true_iff in Hpre as [Hpre|Hpre];
          [apply orb_true_iff in Hpre as [Hpre|Hpre]|];
          apply startsWith_cons in Hpre as [r ->]; eauto. }
      destruct Hc as (c & r & -> & Hc). simpl.
      destruct (isWhiteSpace c) eqn:E; [|reflexivity].
      apply whiteSpace_codes in E. lia. }
    rewrite B. cbn [negb].
    assert (L : (256 <? N.of_nat (List.length v))%N = false)
      by (rewrite N.ltb_ge; lia).
    rewrite L.
    destruct (startsWith (js "ipfs://") v), (startsWith (js "http://") v),
      (startsWith (js "https://") v); simpl in *; congruence.
Qed.

(** X12: for every field that has a required rule, the validator leaves
    the field's required message exactly when the input is blank (empty
    or white space only): no other input gets it and blank input gets
    nothing else. *)
Theorem required_error_iff_blank (f : field) (v : jsstring) (m : string) :
  requiredMessage f = Some m ->
  (message f v = m <-> blank v = true).
Proof.
  intros Hm.
  destruct f; simpl in Hm; inversion Hm; subst m; clear Hm;
    unfold message, check;
    match goal with
    | |- context [let '(_, _) := ?g _ _ in _] => unfold g
    | |- context [let '(_, _) := ?g _ _ _ in _] => unfold g
    end;
    unfold_monad; rewrite truthy_trim;
    (destruct (blank v); cbn [negb];
     [ split; reflexivity
     | split_ifs; simpl; split; intros; discriminate ]).
Qed.

Lemma required_error_iff_blank_witness :
  message ServiceTitle (js "  ") = "Service title is required" <->
  blank (js "  ") = true.
Proof.
  apply (required_error_iff_blank ServiceTitle (js "  ")). reflexivity.
Defined.

(** ** Every call ever made carries validated text *)

Section CallLog.
Context {S C : Type}.
Variable P : C -> Prop.

Lemma calls_edit (f : S -> S) (p : page S C) :
  Forall P (calls p) -> Forall P (calls (edit f p)).
Proof. auto. Qed.

Lemma calls_trigger (disabled : S -> bool) (h : S -> run S C) (p : page S C) :
  (forall s, Forall P (callsOf (h s))) ->
  Forall P (calls p) -> Forall P (calls (trigger disabled h p)).
Proof.
  unfold trigger, dispatch. intros Hh Hp.
  destruct (disabled (ui p)); [exact Hp|].
  specialize (Hh (ui p)). destruct (h (ui p)); simpl in *; [exact Hp|].
  apply Forall_app. split; assumption.
Qed.

Lemma calls_settle (i : nat) (o : settlement) (p : page S C) :
  Forall P (calls p) -> Forall P (calls (settle i o p)).
Proof.
  unfold settle. destruct (pending p !! i) as [[c k]|]; auto.
Qed.
End CallLog.

Ltac valid_call :=
  intros;
  match goal with
  | |- Forall _ (callsOf (?h ?s)) => unfold h
  end;
  handler_cases;
  repeat match goal with
         | |- context [accepts ?f ?v] => destruct (accepts f v) eqn:?
         end;
  simpl; repeat constructor; assumption.

(** X13: on the launchpad page, whatever the user does, every create
    call that is ever made carries a name accepted by the name validator
    and a symbol accepted by the symbol validator. *)
Theorem launchpad_calls_validated (evs : list Launchpad.event) :
  Forall (fun c => match c with
                   | Launchpad.createToken n y _ _ =>
                       accepts TokenName n = true /\ accepts TokenSymbol y = true
                   end)
         (calls (Launchpad.after evs)).
Proof.
  unfold Launchpad.after.
  assert (H0 : Forall (fun c => match c with
                   | Launchpad.createToken n y _ _ =>
                       accepts TokenName n = true /\ accepts TokenSymbol y = true
                   end) (calls Launchpad.mounted)) by constructor.
  revert H0. generalize Launchpad.mounted.
  induction evs as [|e evs IH]; intros p Hp; [exact Hp|].
  cbn [fold_left]. apply IH.
  destruct e; cbn [Launchpad.step];
    first [ apply calls_edit; exact Hp
          | apply calls_settle; exact Hp
          | apply calls_trigger; [valid_call | exact Hp] ].
Qed.

(** X14: on the marketplace page, whatever the user does, every URI that
    is ever passed to the mint action is one the URI validator accepts. *)
Theorem marketplace_mints_validated (evs : list Marketplace.event) :
  Forall (fun c => match c with
                   | Marketplace.mintNFT uri => accepts MintUri uri = true
                   | _ => True
                   end)
         (calls (Marketplace.after evs)).
Proof.
  unfold Marketplace.after.
  assert (H0 : Forall (fun c => match c with
                   | Marketplace.mintNFT uri => accepts MintUri uri = true
                   | _ => True
                   end) (calls Marketplace.mounted)) by constructor.
  revert H0. generalize Marketplace.mounted.
  induction evs as [|e evs IH]; intros p Hp; [exact Hp|].
  cbn [fold_left]. apply IH.
  destruct e; cbn [Marketplace.step];
    first [ apply calls_edit; exact Hp
          | apply calls_settle; exact Hp
          | apply calls_trigger; [valid_call | exact Hp] ].
Qed.

(** X15: on the services page, whatever the user does, every title that
    is ever passed to the register action is one the title validator
    accepts. *)
Theorem services_titles_validated (evs : list Services.event) :
  Forall (fun c => match c with
                   | Services.registerService t _ => accepts ServiceTitle t = true
                   | _ => True
                   end)
         (calls (Services.after evs)).
Proof.
  unfold Services.after.
  assert (H0 : Forall (fun c => match c with
                   | Services.registerService t _ => accepts ServiceTitle t = true
                   | _ => True
                   end) (calls Services.mounted)) by constructor.
  revert H0. generalize Services.mounted.
  induction evs as [|e evs IH]; intros p Hp; [exact Hp|].
  cbn [fold_left]. apply IH.
  destruct e; cbn [Services.step];
    first [ apply calls_edit; exact Hp
          | apply calls_settle; exact Hp
          | apply calls_trigger; [valid_call | exact Hp] ].
Qed.

(** ** The useFormValidation hook *)

Section HookExtras.
Context {V : Type}.
Variable validators : gmap string (FormHook.validator V).

(** X16: [validateAll] recomputes the whole error map from the current
    values, whatever the old errors and the touched flags were: a field
    has an entry exactly when it has a validator that rejects its current
    value, the entry is that validator's error, and the answer is true
    exactly when the new error map is empty; values and touched flags are
    not changed. *)
Theorem validateAll_reports_exactly_rejections (st : FormHook.state V) :
  let r := FormHook.validateAll validators st in
  (forall field,
     FormHook.errors r.2 !! field
     = validators !! field ≫= FormHook.verdict (FormHook.values st) field) /\
  (r.1 = true <-> FormHook.errors r.2 = ∅) /\
  FormHook.values r.2 = FormHook.values st /\
  FormHook.touched r.2 = FormHook.touched st.
Proof.
  cbv zeta. split; [apply validateAll_errors|]. split; [|apply validateAll_values].
  rewrite validateAll_valid, map_empty. split.
  - intros H field. rewrite validateAll_errors.
    destruct (validators !! field) as [validator|] eqn:E; [|reflexivity].
    simpl. unfold FormHook.verdict. rewrite (H field validator E). reflexivity.
  - intros H field validator E. specialize (H field).
    rewrite validateAll_errors, E in H. simpl in H. unfold FormHook.verdict in H.
    destruct (FormHook.valid _); [reflexivity | discriminate].
Qed.

(** X17: calling [validateAll] twice in a row with unchanged values gives
    the same answer and the same state as calling it once. *)
Theorem validateAll_idempotent (st : FormHook.state V) :
  FormHook.validateAll validators (FormHook.validateAll validators st).2
  = FormHook.validateAll validators st.
Proof.
  unfold FormHook.validateAll.
  destruct (map_fold (FormHook.validateField (FormHook.values st)) (∅, true) validators)
    as [errs ok] eqn:E.
  simpl. rewrite E. reflexivity.
Qed.

(** X18: right after [validateAll], validating any single field changes
    nothing: the per-field [validate] and [validateAll] agree on every
    field's error. *)
Theorem validate_after_validateAll (st : FormHook.state V) (field : string) :
  (FormHook.validate validators field (FormHook.validateAll validators st).2).2
  = (FormHook.validateAll validators st).2.
Proof.
  pose proof (validateAll_errors validators st field) as He.
  pose proof (validateAll_values validators st) as [Hv _].
  unfold FormHook.validate. unfold FormHook.validator in *.
  destruct (validators !! field) as [validator|] eqn:E; [|reflexivity].
  rewrite Hv. simpl in He. unfold FormHook.verdict in He.
  destruct (FormHook.validateAll validators st).2 as [vals errs tch].
  simpl in *.
  destruct (FormHook.valid (validator (FormHook.values st !! field))) eqn:Hx;
    unfold FormHook.setErrors; simpl; f_equal.
  - apply delete_id. exact He.
  - apply insert_id. exact He.
Qed.

(** X19: [setFieldTouched] marks its field as touched and validates that
    field only: the field's error becomes what its validator yields on
    the field's current value (it is left alone when the field has no
    validator), and the values, the errors of the other fields and the
    touched flags of the other fields are as before. *)
Theorem setFieldTouched_frame (st : FormHook.state V) (field other : string) :
  other <> field ->
  let st' := FormHook.setFieldTouched validators field st in
  FormHook.errors st' !! field
  = match validators !! field with
    | Some validator => FormHook.verdict (FormHook.values st) field validator
    | None => FormHook.errors st !! field
    end /\
  FormHook.values st' = FormHook.values st /\
  FormHook.touched st' !! field = Some true /\
  FormHook.touched st' !! other = FormHook.touched st !! other /\
  FormHook.errors st' !! other = FormHook.errors st !! other.
Proof.
  intros Hne. cbv zeta.
  unfold FormHook.setFieldTouched, FormHook.validate, FormHook.verdict.
  unfold FormHook.validator in *.
  assert (Ht : forall tch : gmap string bool,
            <[field := true]> tch !! field = Some true /\
            <[field := true]> tch !! other = tch !! other).
  { intros tch. split; [apply lookup_insert_eq | apply lookup_insert_ne; congruence]. }
  destruct (validators !! field) as [validator|]; simpl.
  - destruct (FormHook.valid _); simpl;
      (split; [|split; [reflexivity|split; [apply Ht|split; [apply Ht|]]]]).
    + apply lookup_delete_eq.
    + apply lookup_delete_ne. congruence.
    + apply lookup_insert_eq.
    + apply lookup_insert_ne. congruence.
  - split; [reflexivity|]. split; [reflexivity|].
    split; [apply Ht|]. split; [apply Ht | reflexivity].
Qed.
End HookExtras.

Lemma setFieldTouched_frame_witness :
  let st' := FormHook.setFieldTouched {[ "title" := Scenarios.rejectTitle ]}
               "title" Scenarios.hookInUse in
  FormHook.errors st' !! "title" = Some (Some "Title is required") /\
  FormHook.values st' = FormHook.values Scenarios.hookInUse /\
  FormHook.touched st' !! "title" = Some true /\
  FormHook.touched st' !! "price" = Some true /\
  FormHook.errors st' !! "price" = Some (Some "Price must be a positive number").
Proof.
  pose proof (setFieldTouched_frame {[ "title" := Scenarios.rejectTitle ]}
                Scenarios.hookInUse "title" "price") as H.
  cbv zeta in *. rewrite lookup_singleton_eq in H.
  destruct H as (H1 & H2 & H3 & H4 & H5); [discriminate|].
  rewrite H1, H2, H3, H4, H5. repeat split.
Defined.

(** ** Short-circuit validation on submit *)

Ltac first_rejection :=
  intros; handler_cases;
  repeat match goal with
         | H : accepts _ _ = _ |- _ => rewrite H
         end;
  rewrite ?accepted_message_empty by assumption; reflexivity.

(** X20: a submit handler with several fields stops at the first field
    whose validator rejects: it clears the errors of the accepted fields
    before it, sets the error of the rejected field, makes no call, and
    leaves the errors of the fields after it as they were. *)
Theorem submit_stops_at_first_rejection :
  (forall s, accepts TokenName (Launchpad.name s) = false ->
     Launchpad.handleCreate s
     = Finished (Launchpad.setNameError (message TokenName (Launchpad.name s)) s)) /\
  (forall s, accepts TokenName (Launchpad.name s) = true ->
     accepts TokenSymbol (Launchpad.symbol s) = false ->
     Launchpad.handleCreate s
     = Finished (Launchpad.setSymbolError (message TokenSymbol (Launchpad.symbol s))
                   (Launchpad.setNameError "" s))) /\
  (forall s, accepts TokenName (Launchpad.name s) = true ->
     accepts TokenSymbol (Launchpad.symbol s) = true ->
     accepts TokenDecimals (Launchpad.decimals s) = false ->
     Launchpad.handleCreate s
     = Finished (Launchpad.setDecimalsError (message TokenDecimals (Launchpad.decimals s))
                   (Launchpad.setSymbolError "" (Launchpad.setNameError "" s)))) /\
  (forall s, accepts TokenName (Launchpad.name s) = true ->
     accepts TokenSymbol (Launchpad.symbol s) = true ->
     accepts TokenDecimals (Launchpad.decimals s) = true ->
     accepts TokenSupply (Launchpad.supply s) = false ->
     Launchpad.handleCreate s
     = Finished (Launchpad.setSupplyError (message TokenSupply (Launchpad.supply s))
                   (Launchpad.setDecimalsError ""
                      (Launchpad.setSymbolError "" (Launchpad.setNameError "" s))))) /\
  (forall s, accepts ListTokenId (Marketplace.listTokenId s) = false ->
     Marketplace.handleList s
     = Finished (Marketplace.setListTokenIdError
                   (message ListTokenId (Marketplace.listTokenId s)) s)) /\
  (forall s, accepts ListTokenId (Marketplace.listTokenId s) = true ->
     accepts ListPrice (Marketplace.listPrice s) = false ->
     Marketplace.handleList s
     = Finished (Marketplace.setListPriceError
                   (message ListPrice (Marketplace.listPrice s))
                   (Marketplace.setListTokenIdError "" s))) /\
  (forall s, accepts ServiceTitle (Services.title s) = false ->
     Services.handleRegister s
     = Finished (Services.setTitleError (message ServiceTitle (Services.title s)) s)) /\
  (forall s, accepts ServiceTitle (Services.title s) = true ->
     accepts ServicePrice (Services.price s) = false ->
     Services.handleRegister s
     = Finished (Services.setPriceError (message ServicePrice (Services.price s))
                   (Services.setTitleError "" s))).
Proof.
  repeat match goal with |- _ /\ _ => split end.
  - unfold Launchpad.handleCreate. first_rejection.
  - unfold Launchpad.handleCreate. first_rejection.
  - unfold Launchpad.handleCreate. first_rejection.
  - unfold Launchpad.handleCreate. first_rejection.
  - unfold Marketplace.handleList. first_rejection.
  - unfold Marketplace.handleList. first_rejection.
  - unfold Services.handleRegister. first_rejection.
  - unfold Services.handleRegister. first_rejection.
Qed.

Lemma submit_stops_at_first_rejection_witness :
  Launchpad.handleCreate Launchpad.initial
  = Finished (Launchpad.setNameError "Token name is required" Launchpad.initial) /\
  Services.handleRegister (Services.setTitle (js "Web Development") Services.initial)
  = Finished (Services.setPriceError "Price is required"
                (Services.setTitle (js "Web Development") Services.initial)).
Proof.
  pose proof submit_stops_at_first_rejection as (H1 & _ & _ & _ & _ & _ & _ & H8).
  split.
  - apply (H1 Launchpad.initial). reflexivity.
  - apply (H8 (Services.setTitle (js "Web Development") Services.initial));
      reflexivity.
Defined.

(** ** A successful submission *)

(** X21: on the launchpad page, when a form whose four values are
    accepted is submitted with the button enabled and the call is
    fulfilled before anything else happens, the page is back in its
    initial state (empty fields, decimals "6", no errors, not loading)
    and nothing is pending; when the call is rejected instead, the
    values are kept, the errors are empty and the page is not loading. *)
Theorem create_then_settle (s : Launchpad.state)
    (cs : list Launchpad.call) :
  accepts TokenName (Launchpad.name s) = true ->
  accepts TokenSymbol (Launchpad.symbol s) = true ->
  accepts TokenDecimals (Launchpad.decimals s) = true ->
  accepts TokenSupply (Launchpad.supply s) = true ->
  Launchpad.createDisabled s = false ->
  let p := Launchpad.step (Page s [] cs) Launchpad.ClickCreate in
  Launchpad.step p (Launchpad.Settle 0 Fulfilled)
  = Page Launchpad.initial [] (calls p) /\
  Launchpad.step p (Launchpad.Settle 0 Rejected)
  = Page (Launchpad.State (Launchpad.name s) "" (Launchpad.symbol s) ""
            (Launchpad.decimals s) "" (Launchpad.supply s) "" false)
         [] (calls p).
Proof.
  intros H1 H2 H3 H4 He. cbv zeta.
  unfold Launchpad.step, trigger, dispatch. cbn [ui]. rewrite He.
  unfold Launchpad.handleCreate. handler_cases.
  rewrite H1, H2, H3, H4.
  rewrite !accepted_message_empty by assumption.
  split; reflexivity.
Qed.

Lemma create_then_settle_witness :
  Launchpad.step
    (Launchpad.step (Page Scenarios.tokenForm [] []) Launchpad.ClickCreate)
    (Launchpad.Settle 0 Fulfilled)
  = Page Launchpad.initial []
      (calls (Launchpad.step (Page Scenarios.tokenForm [] []) Launchpad.ClickCreate)).
Proof.
  apply (create_then_settle Scenarios.tokenForm []); reflexivity.
Defined.

(** ** The fraction of a listing price *)

Lemma digit_codes (c : N) :
  isDigit c = true ->
  (c = 48 \/ c = 49 \/ c = 50 \/ c = 51 \/ c = 52 \/
   c = 53 \/ c = 54 \/ c = 55 \/ c = 56 \/ c = 57)%N.
Proof.
  unfold isDigit. rewrite andb_true_iff, !N.leb_le. lia.
Qed.

Lemma digit_not_whiteSpace (c : N) : isDigit c = true -> isWhiteSpace c = false.
Proof.
  intros H. apply digit_codes in H.
  destruct (isWhiteSpace c) eqn:E; [|reflexivity].
  apply whiteSpace_codes in E. lia.
Qed.

Lemma spanDigits_stop (c : N) (r : jsstring) :
  isDigit c = false -> spanDigits 10 (c :: r) = ([], c :: r).
Proof.
  intros H. cbn [spanDigits]. unfold digitValue. rewrite H.
  destruct (isLower c) eqn:L.
  - replace (c - 97 + 10 <? 10)%N with false; [reflexivity|].
    symmetry. apply N.ltb_ge. lia.
  - destruct (isUpper c) eqn:U; [|reflexivity].
    replace (c - 65 + 10 <? 10)%N with false; [reflexivity|].
    symmetry. apply N.ltb_ge. lia.
Qed.

Lemma spanDigits_digits (ip rest : jsstring) :
  forallb isDigit ip = true ->
  match rest with [] => True | c :: _ => isDigit c = false end ->
  spanDigits 10 (ip ++ rest)%list = (List.map (fun c => c - 48)%N ip, rest).
Proof.
  intros Hd Hr. induction ip as [|c ip IH].
  - destruct rest as [|c r]; [reflexivity|]. apply spanDigits_stop. exact Hr.
  - cbn [forallb] in Hd. apply andb_true_iff in Hd as [Hc Hd].
    cbn [app spanDigits List.map]. unfold digitValue. rewrite Hc.
    replace (c - 48 <? 10)%N with true.
    + rewrite (IH Hd). reflexivity.
    + symmetry. apply N.ltb_lt. apply digit_codes in Hc. lia.
Qed.

(** Without a radix, [parseInt] of a string that starts with decimal
    digits and goes on with a character that is neither a digit nor part
    of a hexadecimal prefix reads exactly those digits. *)
Lemma parseInt_leading_digits (ip rest : jsstring) :
  ip <> [] ->
  forallb isDigit ip = true ->
  match rest with
  | [] => True
  | c :: _ => isDigit c = false /\ c <> 120%N /\ c <> 88%N
  end ->
  parseInt (ip ++ rest)%list 0
  = ofInteger false (digitsValue 10 (List.map (fun c => c - 48)%N ip)).
Proof.
  intros Hne Hd Hr.
  assert (Hspan : spanDigits 10 (ip ++ rest)%list = (List.map (fun c => c - 48)%N ip, rest)).
  { apply spanDigits_digits; [exact Hd|]. destruct rest; [exact I | apply Hr]. }
  destruct ip as [|c ip]; [congruence|]. clear Hne.
  cbn [forallb] in Hd. apply andb_true_iff in Hd as [Hc Hd].
  unfold parseInt. cbn [app trimStart]. rewrite (digit_not_whiteSpace c Hc).
  assert (Hsign : takeSign (c :: ip ++ rest)%list = (false, (c :: ip ++ rest)%list)).
  { apply digit_codes in Hc.
    repeat (destruct Hc as [->|Hc]; [reflexivity|]). subst c. reflexivity. }
  rewrite Hsign.
  change (negb (0 =? 0)%N && ((0 <? 2)%N || (36 <? 0)%N)) with false.
  change ((0 =? 0)%N || (0 =? 16)%N) with true.
  change (if (0 =? 0)%N then 10%N else 0%N) with 10%N.
  cbv iota beta.
  match goal with
  | |- context [let '(_, _) := ?m in _] =>
      assert (Hprefix : m = (10%N, (c :: ip ++ rest)%list))
  end.
  { destruct ip as [|d ip]; cbn [app].
    - destruct rest as [|e rest].
      + apply digit_codes in Hc.
        repeat (destruct Hc as [->|Hc]; [reflexivity|]). subst c. reflexivity.
      + destruct Hr as (_ & Hx & HX).
        destruct (N.eq_dec c 48) as [->|Hc48].
        * destruct e as [|e]; [reflexivity|].
          do 7 (destruct e as [e|e|]; try reflexivity);
            solve [exfalso; apply Hx; reflexivity | exfalso; apply HX; reflexivity].
        * apply digit_codes in Hc.
          repeat (destruct Hc as [->|Hc]; [reflexivity || congruence|]).
          subst c. reflexivity.
    - cbn [forallb] in Hd. apply andb_true_iff in Hd as [Hd' _].
      apply digit_codes in Hc. apply digit_codes in Hd'.
      repeat (destruct Hc as [->|Hc];
              [repeat (destruct Hd' as [->|Hd']; [reflexivity|]);
               subst d; reflexivity|]).
      subst c. repeat (destruct Hd' as [->|Hd']; [reflexivity|]).
      subst d. reflexivity. }
  rewrite Hprefix. cbn [app] in Hspan. rewrite Hspan.
  destruct (List.map _ (c :: ip)) eqn:E; [discriminate E | reflexivity].
Qed.

(** X22: when the listing price is written with a decimal point (digits,
    a point, anything after it) and the form is accepted, the price
    passed to the external list action is the integer before the point
    times 1000000: nothing that follows the point reaches the call. *)
Theorem list_price_fraction_dropped (s : Marketplace.state) (ip fp : jsstring) :
  ip <> [] ->
  forallb isDigit ip = true ->
  Marketplace.listPrice s = (ip ++ 46%N :: fp)%list ->
  accepts ListTokenId (Marketplace.listTokenId s) = true ->
  accepts ListPrice (Marketplace.listPrice s) = true ->
  callsOf (Marketplace.handleList s)
  = [Marketplace.listNFT (parseInt (Marketplace.listTokenId s) 0)
       (mul (parseInt ip 0) (ofZ 1000000))].
Proof.
  intros Hne Hd Hp Ht Ha.
  rewrite (handleList_accepted s Ht Ha). cbn [callsOf]. rewrite Hp.
  rewrite (parseInt_leading_digits ip (46%N :: fp) Hne Hd)
    by (repeat split; discriminate).
  pose proof (parseInt_leading_digits ip [] Hne Hd I) as H0.
  rewrite app_nil_r in H0. rewrite H0. reflexivity.
Qed.

Lemma list_price_fraction_dropped_witness :
  callsOf (Marketplace.handleList Scenarios.listingForm)
  = [Marketplace.listNFT (parseInt (js "1") 0)
       (mul (parseInt (js "1") 0) (ofZ 1000000))].
Proof.
  apply (list_price_fraction_dropped Scenarios.listingForm (js "1") (js "5"));
    (reflexivity || discriminate).
Defined.

(** ** Identifiers made of digits *)

Lemma shr_1_nonneg (mrs : shr_record) :
  (0 <= shr_m mrs)%Z -> (0 <= shr_m (shr_1 mrs))%Z.
Proof.
  destruct mrs as [m r s]. destruct m as [|[p|p|]|p]; simpl; lia.
Qed.

Lemma iter_shr_1_nonneg (p : positive) (mrs : shr_record) :
  (0 <= shr_m mrs)%Z -> (0 <= shr_m (SpecFloat.iter_pos shr_1 p mrs))%Z.
Proof.
  revert mrs. induction p as [p IH|p IH|]; intros mrs H; simpl;
    auto using shr_1_nonneg.
Qed.

Lemma shr_fexp_nonneg (m e : Z) (l : location) :
  (0 <= m)%Z -> (0 <= shr_m (fst (shr_fexp prec emax m e l)))%Z.
Proof.
  intros H. unfold shr_fexp, shr.
  assert (H0 : (0 <= shr_m (shr_record_of_loc m l))%Z)
    by (destruct l as [|[]]; exact H).
  destruct (_ - e)%Z; simpl; auto using iter_shr_1_nonneg.
Qed.

Lemma round_nearest_even_nonneg (mx : Z) (lx : location) :
  (0 <= mx)%Z -> (0 <= round_nearest_even mx lx)%Z.
Proof.
  intros H. destruct lx as [|[]]; simpl; try destruct (Z.even mx); lia.
Qed.

(** Rounding a non-negative mantissa gives a zero, a finite number or an
    infinity of the requested sign, never NaN. *)
Lemma binary_round_aux_sign (sx : bool) (mx ex : Z) (lx : location) :
  (0 <= mx)%Z ->
  match binary_round_aux prec emax sx mx ex lx with
  | S754_nan => False
  | S754_zero s | S754_infinity s | S754_finite s _ _ => s = sx
  end.
Proof.
  intros H. unfold binary_round_aux.
  pose proof (shr_fexp_nonneg mx ex lx H) as H1.
  destruct (shr_fexp prec emax mx ex lx) as [mrs' e']. simpl in H1.
  pose proof (round_nearest_even_nonneg (shr_m mrs') (loc_of_shr_record mrs') H1) as H2.
  pose proof (shr_fexp_nonneg _ e' loc_Exact H2) as H3.
  destruct (shr_fexp prec emax _ e' loc_Exact) as [mrs'' e'']. simpl in H3.
  destruct (shr_m mrs''); [reflexivity | | lia].
  destruct (e'' <=? emax - prec)%Z; reflexivity.
Qed.

Lemma ofInteger_nonneg (n : N) :
  isNaN (ofInteger false n) = false /\ lt (ofInteger false n) (ofZ 0) = false.
Proof.
  unfold ofInteger, binary_normalize. destruct n as [|p]; simpl Z.of_N.
  - split; reflexivity.
  - unfold binary_round.
    destruct (shl_align _ _ _) as [mz ez].
    pose proof (binary_round_aux_sign false (Zpos mz) ez loc_Exact) as H.
    destruct (binary_round_aux prec emax false (Z.pos mz) ez loc_Exact);
      [ split; reflexivity
      | specialize (H ltac:(lia)); subst; split; reflexivity
      | exfalso; apply H; lia
      | specialize (H ltac:(lia)); subst; split; reflexivity ].
Qed.

Lemma parseInt10_digits (v : jsstring) :
  v <> [] ->
  forallb isDigit v = true ->
  parseInt v 10 = ofInteger false (digitsValue 10 (List.map (fun c => c - 48)%N v)).
Proof.
  intros Hne Hd.
  pose proof (spanDigits_digits v [] Hd I) as Hspan. rewrite app_nil_r in Hspan.
  destruct v as [|c v]; [congruence|]. clear Hne.
  cbn [forallb] in Hd. apply andb_true_iff in Hd as [Hc Hd].
  unfold parseInt. cbn [trimStart]. rewrite (digit_not_whiteSpace c Hc).
  assert (Hsign : takeSign (c :: v) = (false, c :: v)).
  { apply digit_codes in Hc.
    repeat (destruct Hc as [->|Hc]; [reflexivity|]). subst c. reflexivity. }
  rewrite Hsign.
  change (negb (10 =? 0)%N && ((10 <? 2)%N || (36 <? 10)%N)) with false.
  change ((10 =? 0)%N || (10 =? 16)%N) with false.
  change (if (10 =? 0)%N then 10%N else 10%N) with 10%N.
  cbv iota beta. rewrite Hspan.
  destruct (List.map _ (c :: v)) eqn:E; [discriminate E | reflexivity].
Qed.

(** X23: the token-ID validators of the marketplace and the service-ID
    validator accept every non-empty string of decimal digits, however
    long: identifiers have no upper bound (not even the safe-integer
    limit that the supply validator applies). *)
Theorem identifier_validators_accept_digits (v : jsstring) :
  v <> [] ->
  forallb isDigit v = true ->
  accepts ListTokenId v = true /\
  accepts BuyTokenId v = true /\
  accepts ServiceId v = true.
Proof.
  intros Hne Hd.
  assert (B : blank v = false).
  { destruct v as [|c r]; [congruence|]. cbn [forallb] in Hd.
    apply andb_true_iff in Hd as [Hc _]. simpl.
    rewrite (digit_not_whiteSpace c Hc). reflexivity. }
  destruct (ofInteger_nonneg (digitsValue 10 (List.map (fun c => c - 48)%N v)))
    as [Hnan Hlt].
  unfold accepts, check, Marketplace.validateTokenId, Services.validateServiceId.
  unfold_monad. rewrite truthy_trim, B, (parseInt10_digits v Hne Hd), Hnan, Hlt.
  repeat split.
Qed.

Lemma identifier_validators_accept_digits_witness :
  accepts ListTokenId (js "340282366920938463463374607431768211456") = true /\
  accepts BuyTokenId (js "340282366920938463463374607431768211456") = true /\
  accepts ServiceId (js "340282366920938463463374607431768211456") = true.
Proof.
  apply (identifier_validators_accept_digits
           (js "340282366920938463463374607431768211456"));
    [discriminate | reflexivity].
Defined.

(** ** Stored errors and the guarded triggers *)

(** X24: on the six triggers that carry a [disabled] attribute (create,
    mint, stake, unstake, register, pay), a non-empty stored error of any
    field of the form disables the trigger: the submit event leaves the
    page as it is, so the handler does not run and no external call is
    made. *)
Theorem stored_error_blocks_guarded_submits :
  (forall p,
     nonEmpty (Launchpad.nameError (ui p)) || nonEmpty (Launchpad.symbolError (ui p)) ||
     nonEmpty (Launchpad.decimalsError (ui p)) || nonEmpty (Launchpad.supplyError (ui p))
     = true ->
     Launchpad.step p Launchpad.ClickCreate = p) /\
  (forall p, nonEmpty (Marketplace.mintUriError (ui p)) = true ->
     Marketplace.step p Marketplace.SubmitMint = p) /\
  (forall p, nonEmpty (Staking.stakeAmountError (ui p)) = true ->
     Staking.step p Staking.SubmitStake = p) /\
  (forall p, nonEmpty (Staking.unstakeAmountError (ui p)) = true ->
     Staking.step p Staking.SubmitUnstake = p) /\
  (forall p,
     nonEmpty (Services.titleError (ui p)) || nonEmpty (Services.priceError (ui p))
     = true ->
     Services.step p Services.ClickRegister = p) /\
  (forall p, nonEmpty (Services.serviceIdError (ui p)) = true ->
     Services.step p Services.ClickPay = p).
Proof.
  repeat match goal with |- _ /\ _ => split end; intros p H.
  - cbn [Launchpad.step]. unfold trigger, Launchpad.createDisabled.
    destruct (Launchpad.isLoading (ui p)), (nonEmpty (Launchpad.nameError (ui p))),
      (nonEmpty (Launchpad.symbolError (ui p))),
      (nonEmpty (Launchpad.decimalsError (ui p))),
      (nonEmpty (Launchpad.supplyError (ui p)));
      simpl in *; (reflexivity || discriminate).
  - cbn [Marketplace.step]. unfold trigger, Marketplace.mintDisabled.
    rewrite H. reflexivity.
  - cbn [Staking.step]. unfold trigger, Staking.stakeDisabled.
    rewrite H. destruct (Staking.isStaking (ui p)); reflexivity.
  - cbn [Staking.step]. unfold trigger, Staking.unstakeDisabled.
    rewrite H. destruct (Staking.isUnstaking (ui p)); reflexivity.
  - cbn [Services.step]. unfold trigger, Services.registerDisabled.
    destruct (Services.isRegistering (ui p)), (nonEmpty (Services.titleError (ui p))),
      (nonEmpty (Services.priceError (ui p)));
      simpl in *; (reflexivity || discriminate).
  - cbn [Services.step]. unfold trigger, Services.payDisabled.
    rewrite H. destruct (Services.isPaying (ui p)); reflexivity.
Qed.

Lemma stored_error_blocks_guarded_submits_witness :
  Launchpad.step
    (Launchpad.after [Launchpad.BlurName; Launchpad.ChangeName (js "My Token");
                      Launchpad.ChangeSymbol (js "MTK");
                      Launchpad.ChangeSupply (js "1000000")])
    Launchpad.ClickCreate
  = Launchpad.after [Launchpad.BlurName; Launchpad.ChangeName (js "My Token");
                     Launchpad.ChangeSymbol (js "MTK");
                     Launchpad.ChangeSupply (js "1000000")].
Proof.
  pose proof stored_error_blocks_guarded_submits as (H & _).
  apply H. reflexivity.
Defined.
